(** * Orion: plot dispatch ([orion.plotting.base]) and plug-in registration
      ([orion.core.cli.db_main])

    A shallow embedding of the two Python modules and the properties of their
    dispatch and registration logic.

    - Python values are an inductive type [pyval]; instances of classes the
      modules never look into (an experiment client, a figure) are [PyObj]
      records carrying what the code can observe of them: identity, truth
      value, [str()] and [repr()].
    - A Python [dict] (and a [**kwargs] mapping) is an association list in
      insertion order.
    - Python code runs in the monad [py S A := S -> (exn + A) * S]: an
      exception leaves the state as it was when it was raised, there is no
      rollback. *)

From Stdlib Require Import String Ascii List ZArith Bool Lia DecimalString.
From ExtLib Require Import Structures.Monad Structures.MonadState Structures.MonadExc.
From ExtLib Require Import Data.Monads.EitherMonad.
Import ListNotations.
Import MonadNotation.
Local Open Scope string_scope.
Local Open Scope monad_scope.

Set Implicit Arguments.
Set Warnings "-register-all".

(** ** Python values *)

(** An instance of a class that is opaque to the two modules. *)
Record pyobject := PyObject {
  obj_id : nat;          (* identity *)
  obj_bool : bool;       (* result of [bool(o)]: [__bool__], else [__len__() != 0], else True *)
  obj_str : string;      (* result of [str(o)] *)
  obj_repr : string      (* result of [repr(o)] *)
}.

Inductive pyval :=
| PyNone
| PyBool (b : bool)
| PyInt (n : Z)
| PyFloat (lit : string)      (* a float, named by its [repr()], which round-trips *)
| PyStr (s : string)
| PyList (xs : list pyval)
| PyObj (o : pyobject).

(** [bool(v)]: the truth value tested by [if not v]. *)
Definition truthy (v : pyval) : bool :=
  match v with
  | PyNone => false
  | PyBool b => b
  | PyInt n => negb (n =? 0)%Z
  | PyFloat lit => negb (String.eqb lit "0.0" || String.eqb lit "-0.0")
  | PyStr s => negb (String.eqb s "")
  | PyList xs => match xs with [] => false | _ => true end
  | PyObj o => obj_bool o
  end.

(** Whether [hash(v)] succeeds; a list is unhashable. *)
Definition hashable (v : pyval) : bool :=
  match v with
  | PyList _ => false
  | _ => true
  end.

(** [type(v).__name__] *)
Definition type_name (v : pyval) : string :=
  match v with
  | PyNone => "NoneType"
  | PyBool _ => "bool"
  | PyInt _ => "int"
  | PyFloat _ => "float"
  | PyStr _ => "str"
  | PyList _ => "list"
  | PyObj _ => "object"
  end.

(** *** [repr()] and [str()] *)

Definition hex_digit (n : nat) : ascii :=
  nth n ["0"; "1"; "2"; "3"; "4"; "5"; "6"; "7"; "8"; "9";
         "a"; "b"; "c"; "d"; "e"; "f"]%char "0"%char.

(** One character of a string inside [repr()], with [q] the quote in use.
    Strings are taken to be ASCII. *)
Definition repr_char (q : ascii) (c : ascii) : string :=
  let n := nat_of_ascii c in
  if Ascii.eqb c "\"%char then "\\"
  else if Ascii.eqb c q then String "\"%char (String q "")
  else if Nat.eqb n 9 then "\t"
  else if Nat.eqb n 10 then "\n"
  else if Nat.eqb n 13 then "\r"
  else if (n <? 32)%nat || Nat.eqb n 127
       then String "\"%char (String "x"%char
              (String (hex_digit (n / 16)) (String (hex_digit (n mod 16)) "")))
  else String c "".

Fixpoint string_mem (c : ascii) (s : string) : bool :=
  match s with
  | EmptyString => false
  | String d s' => Ascii.eqb c d || string_mem c s'
  end.

Fixpoint concat_map_string (f : ascii -> string) (s : string) : string :=
  match s with
  | EmptyString => ""
  | String c s' => f c ++ concat_map_string f s'
  end.

Definition double_quote : ascii := ascii_of_nat 34.

(** [repr(s)] for a [str]: single quotes, unless the string has a single
    quote and no double quote. *)
Definition repr_str (s : string) : string :=
  let q := if string_mem "'"%char s && negb (string_mem double_quote s)
           then double_quote else "'"%char in
  String q (concat_map_string (repr_char q) s ++ String q "").

Fixpoint join (sep : string) (l : list string) : string :=
  match l with
  | [] => ""
  | [x] => x
  | x :: rest => x ++ sep ++ join sep rest
  end.

Fixpoint py_repr (v : pyval) : string :=
  match v with
  | PyNone => "None"
  | PyBool true => "True"
  | PyBool false => "False"
  | PyInt n => NilZero.string_of_int (Z.to_int n)
  | PyFloat lit => lit
  | PyStr s => repr_str s
  | PyList xs => "[" ++ join ", " (map py_repr xs) ++ "]"
  | PyObj o => obj_repr o
  end.

(** [str(v)], which is what an f-string field [{v}] inserts. *)
Definition py_str (v : pyval) : string :=
  match v with
  | PyStr s => s
  | PyObj o => obj_str o
  | _ => py_repr v
  end.

(** ** Exceptions *)

(** The [TypeError]s the interpreter raises on a call; their text differs
    between Python versions, so they are kept structured. *)
Inductive type_error :=
| MultipleValues (func arg : string)     (* func() got multiple values for argument 'arg' *)
| UnexpectedKeyword (func arg : string)  (* func() got an unexpected keyword argument 'arg' *)
| TooManyPositional (func : string)      (* func() takes n positional arguments but m were given *)
| MissingArgument (func arg : string)    (* func() missing 1 required positional argument: 'arg' *)
| Unhashable (ty : string)               (* unhashable type: 'ty' *)
| NotCallable (ty : string).             (* 'ty' object is not callable *)

Inductive exn :=
| ValueError (msg : string)
| TypeError (e : type_error)
| AttributeError (obj attr : string)     (* 'obj' has no attribute 'attr' *)
| KeyError (key : string)
| Raised (cls msg : string).             (* any other exception class, raised by a collaborator *)

(** ** Dictionaries *)

Definition dict (V : Type) : Type := list (string * V).

Fixpoint dict_get {V} (d : dict V) (k : string) : option V :=
  match d with
  | [] => None
  | (k', v) :: rest => if String.eqb k k' then Some v else dict_get rest k
  end.

(** [k in d] *)
Definition dict_contains {V} (d : dict V) (k : string) : bool :=
  match dict_get d k with Some _ => true | None => false end.

(** [list(d.keys())] *)
Definition dict_keys {V} (d : dict V) : list string := map fst d.

(** [del d[k]] on a dictionary that has the key; keys are unique in a
    dictionary, so every entry under [k] goes. *)
Fixpoint dict_del {V} (d : dict V) (k : string) : dict V :=
  match d with
  | [] => []
  | (k', v) :: rest =>
      if String.eqb k k' then dict_del rest k else (k', v) :: dict_del rest k
  end.

(** [d[k] = v]: in place when the key exists, at the end otherwise. *)
Fixpoint dict_set {V} (d : dict V) (k : string) (v : V) : dict V :=
  match d with
  | [] => [(k, v)]
  | (k', v') :: rest =>
      if String.eqb k k' then (k', v) :: rest else (k', v') :: dict_set rest k v
  end.

(** [d.pop(k, default)]: the value and the dictionary left. *)
Definition dict_pop {V} (d : dict V) (k : string) (default : V) : V * dict V :=
  match dict_get d k with
  | Some v => (v, dict_del d k)
  | None => (default, d)
  end.

(** ** The monad of Python code over a state [S] *)

Definition py (S A : Type) : Type := S -> (exn + A) * S.

#[global] Instance Monad_py {S} : Monad (py S) :=
{ ret := fun _ x s => (inr x, s)
; bind := fun _ _ c f s =>
    match c s with
    | (inl e, s') => (inl e, s')
    | (inr a, s') => f a s'
    end
}.

#[global] Instance MonadExc_py {S} : MonadExc exn (py S) :=
{ raise := fun _ e s => (inl e, s)
; catch := fun _ c h s =>
    match c s with
    | (inl e, s') => h e s'
    | (inr a, s') => (inr a, s')
    end
}.

#[global] Instance MonadState_py {S} : MonadState S (py S) :=
{ get := fun s => (inr s, s)
; put := fun s' _ => (inr tt, s')
}.

(** A computation that only returns or raises. *)
Definition lift_exn {S A} (r : exn + A) : py S A := fun s => (r, s).

(** ** Calls *)

(** The keyword mapping of a call [f(k1=v1, ..., **star)]: the explicit
    keywords, then the entries of [star] in order; a key given twice is a
    [TypeError]. *)
Fixpoint merge_kwargs (func : string) (explicit star : dict pyval)
  : exn + dict pyval :=
  match star with
  | [] => inr explicit
  | (k, v) :: rest =>
      if dict_contains explicit k
      then inl (TypeError (MultipleValues func k))
      else merge_kwargs func (explicit ++ [(k, v)])%list rest
  end.

(** The signature of a [def]: parameters with their defaults, and whether
    it ends in [**kwargs]. *)
Record signature := Signature {
  sig_name : string;
  sig_params : list (string * option pyval);
  sig_varkw : bool
}.

Fixpoint bind_positional (func : string) (params : list (string * option pyval))
  (args : list pyval) : exn + dict (option pyval) :=
  match params, args with
  | _, [] => inr (map (fun p => (fst p, None)) params)
  | [], _ :: _ => inl (TypeError (TooManyPositional func))
  | (n, _) :: ps, a :: rest =>
      slots <- bind_positional func ps rest ;;
      ret ((n, Some a) :: slots)
  end.

Fixpoint bind_keywords (func : string) (varkw : bool)
  (slots : dict (option pyval)) (extra kwargs : dict pyval)
  : exn + (dict (option pyval) * dict pyval) :=
  match kwargs with
  | [] => inr (slots, extra)
  | (k, v) :: rest =>
      match dict_get slots k with
      | Some (Some _) => inl (TypeError (MultipleValues func k))
      | Some None => bind_keywords func varkw (dict_set slots k (Some v)) extra rest
      | None =>
          if varkw then bind_keywords func varkw slots (extra ++ [(k, v)])%list rest
          else inl (TypeError (UnexpectedKeyword func k))
      end
  end.

Fixpoint bind_defaults (func : string) (params : list (string * option pyval))
  (slots : dict (option pyval)) : exn + dict pyval :=
  match params with
  | [] => inr []
  | (n, dflt) :: ps =>
      v <- match dict_get slots n, dflt with
           | Some (Some v), _ => inr v
           | _, Some d => inr d
           | _, None => inl (TypeError (MissingArgument func n))
           end ;;
      bound <- bind_defaults func ps slots ;;
      ret ((n, v) :: bound)
  end.

(** Binding the positional and keyword arguments of a call to the
    parameters of [f]: the bound parameters, and what [f]'s own variadic
    keyword parameter collects. *)
Definition bind_arguments (sg : signature) (args : list pyval) (kwargs : dict pyval)
  : exn + (dict pyval * dict pyval) :=
  slots <- bind_positional (sig_name sg) (sig_params sg) args ;;
  '(slots, extra) <- bind_keywords (sig_name sg) (sig_varkw sg) slots [] kwargs ;;
  bound <- bind_defaults (sig_name sg) (sig_params sg) slots ;;
  ret (bound, extra).

(** The value of a bound parameter. *)
Definition arg (bound : dict pyval) (name : string) : pyval :=
  match dict_get bound name with Some v => v | None => PyNone end.

(** [k in keys] for [keys] the key view of a dictionary with string keys:
    the key is hashed first, and only a [str] can be equal to a key. *)
Definition keys_contains (keys : list string) (k : pyval) : exn + bool :=
  if hashable k
  then inr (match k with
            | PyStr s => existsb (String.eqb s) keys
            | _ => false
            end)
  else inl (TypeError (Unhashable (type_name k))).

(** [d[k]] *)
Definition dict_getitem {V} (d : dict V) (k : pyval) : exn + V :=
  if hashable k
  then match k with
       | PyStr s =>
           match dict_get d s with
           | Some v => inr v
           | None => inl (KeyError (py_repr k))
           end
       | _ => inl (KeyError (py_repr k))
       end
  else inl (TypeError (Unhashable (type_name k))).

(** * [orion.plotting.base] *)

(** The plotting backend, [orion.plotting.backend_plotly], is outside the
    module: a call [backend.fn(args, kwargs)] is a transition of the
    backend's own state [B] that returns a figure or raises. *)
Class Backend (B : Type) : Type :=
  backend : string -> list pyval -> dict pyval -> B -> (exn + pyval) * B.

(** A call that reached the backend. *)
Record call := Call {
  callee : string;
  call_args : list pyval;
  call_kwargs : dict pyval
}.

(** The instance attributes of a [PlotAccessor]; [None] is an attribute
    that has not been set. *)
Record PlotAccessor_attrs := Attrs { _experiment : option pyval }.

(** The state the module runs in: the accessor objects by reference, the
    backend's state, and the calls made to the backend so far. *)
Record pstate (B : Type) := PState {
  heap : nat -> PlotAccessor_attrs;
  next_ref : nat;
  backend_state : B;
  trace : list call
}.

Definition backend_call {B} `{Backend B} (fn : string) (args : list pyval)
  (kwargs : dict pyval) : py (pstate B) pyval :=
  fun st =>
    let (r, b) := backend fn args kwargs (backend_state st) in
    (r, {| heap := heap st; next_ref := next_ref st; backend_state := b;
           trace := (trace st ++ [Call fn args kwargs])%list |}).

(** A plot function of the module: called with positional and keyword
    arguments. *)
Definition handler (B : Type) : Type :=
  list pyval -> dict pyval -> py (pstate B) pyval.

Definition lpi_signature : signature :=
  Signature "lpi"
    [("experiment", None); ("model", Some (PyStr "RandomForestRegressor"));
     ("model_kwargs", Some PyNone); ("n_points", Some (PyInt 20))] true.

Definition lpi {B} `{Backend B} : handler B := fun args kw =>
  '(a, kwargs) <- lift_exn (bind_arguments lpi_signature args kw) ;;
  kws <- lift_exn (merge_kwargs "lpi"
           [("model", arg a "model"); ("model_kwargs", arg a "model_kwargs");
            ("n_points", arg a "n_points")] kwargs) ;;
  backend_call "lpi" [arg a "experiment"] kws.

Definition parallel_coordinates_signature : signature :=
  Signature "parallel_coordinates"
    [("experiment", None); ("order", Some PyNone)] true.

Definition parallel_coordinates {B} `{Backend B} : handler B := fun args kw =>
  '(a, kwargs) <- lift_exn (bind_arguments parallel_coordinates_signature args kw) ;;
  kws <- lift_exn (merge_kwargs "parallel_coordinates"
           [("order", arg a "order")] kwargs) ;;
  backend_call "parallel_coordinates" [arg a "experiment"] kws.

Definition partial_dependencies_signature : signature :=
  Signature "partial_dependencies"
    [("experiment", None); ("params", Some PyNone);
     ("smoothing", Some (PyFloat "0.85")); ("n_grid_points", Some (PyInt 10));
     ("n_samples", Some (PyInt 50)); ("colorscale", Some (PyStr "Blues"));
     ("model", Some (PyStr "RandomForestRegressor"));
     ("model_kwargs", Some PyNone)] false.

Definition partial_dependencies {B} `{Backend B} : handler B := fun args kw =>
  '(a, _) <- lift_exn (bind_arguments partial_dependencies_signature args kw) ;;
  backend_call "partial_dependencies" [arg a "experiment"]
    [("params", arg a "params"); ("smoothing", arg a "smoothing");
     ("n_grid_points", arg a "n_grid_points"); ("n_samples", arg a "n_samples");
     ("colorscale", arg a "colorscale"); ("model", arg a "model");
     ("model_kwargs", arg a "model_kwargs")].

Definition regret_signature : signature :=
  Signature "regret"
    [("experiment", None); ("order_by", Some (PyStr "suggested"));
     ("verbose_hover", Some (PyBool true))] true.

Definition regret {B} `{Backend B} : handler B := fun args kw =>
  '(a, kwargs) <- lift_exn (bind_arguments regret_signature args kw) ;;
  kws <- lift_exn (merge_kwargs "regret" [] kwargs) ;;
  backend_call "regret"
    [arg a "experiment"; arg a "order_by"; arg a "verbose_hover"] kws.

Definition PLOT_METHODS {B} `{Backend B} : dict (handler B) :=
  [("lpi", lpi);
   ("parallel_coordinates", parallel_coordinates);
   ("partial_dependencies", partial_dependencies);
   ("regret", regret)].

Module PlotAccessor.

(** [self._experiment] *)
Definition get_experiment {B} (self : nat) : py (pstate B) pyval :=
  st <- get ;;
  match _experiment (heap st self) with
  | Some e => ret e
  | None => raise (AttributeError "PlotAccessor" "_experiment")
  end.

(** [self._experiment = v] *)
Definition set_experiment {B} (self : nat) (v : pyval) : py (pstate B) unit :=
  st <- get ;;
  put {| heap := fun r => if Nat.eqb r self then Attrs (Some v) else heap st r;
         next_ref := next_ref st;
         backend_state := backend_state st;
         trace := trace st |}.

Definition __init__ {B} (self : nat) (experiment : pyval) : py (pstate B) unit :=
  if negb (truthy experiment)
  then raise (ValueError "Parameter 'experiment' is None")
  else set_experiment self experiment.

(** The expression [PlotAccessor(experiment)]: a new object without
    attributes, initialised by [__init__]; the reference is the value of
    the expression only when [__init__] returns. *)
Definition new {B} (experiment : pyval) : py (pstate B) nat :=
  st <- get ;;
  let self := next_ref st in
  put {| heap := fun r => if Nat.eqb r self then Attrs None else heap st r;
         next_ref := S self;
         backend_state := backend_state st;
         trace := trace st |} ;;
  __init__ self experiment ;;
  ret self.

Definition __call__ {B} `{Backend B} (self : nat) (kwargs : dict pyval)
  : py (pstate B) pyval :=
  let '(kind, kwargs) := dict_pop kwargs "kind" (PyStr "regret") in
  known <- lift_exn (keys_contains (dict_keys PLOT_METHODS) kind) ;;
  if negb known
  then raise (ValueError ("Plot of kind '" ++ py_str kind ++ "' is not one of "
                ++ py_repr (PyList (map PyStr (dict_keys PLOT_METHODS)))))
  else
    plot <- lift_exn (dict_getitem PLOT_METHODS kind) ;;
    experiment <- get_experiment self ;;
    plot [experiment] kwargs.

(** The four methods below also assign a local [__doc__], which nothing
    reads. *)
Definition lpi {B} `{Backend B} (self : nat) (kwargs : dict pyval)
  : py (pstate B) pyval :=
  kw <- lift_exn (merge_kwargs "__call__" [("kind", PyStr "lpi")] kwargs) ;;
  __call__ self kw.

Definition parallel_coordinates {B} `{Backend B} (self : nat)
  (kwargs : dict pyval) : py (pstate B) pyval :=
  kw <- lift_exn (merge_kwargs "__call__"
          [("kind", PyStr "parallel_coordinates")] kwargs) ;;
  __call__ self kw.

Definition partial_dependencies {B} `{Backend B} (self : nat)
  (kwargs : dict pyval) : py (pstate B) pyval :=
  kw <- lift_exn (merge_kwargs "__call__"
          [("kind", PyStr "partial_dependencies")] kwargs) ;;
  __call__ self kw.

Definition regret {B} `{Backend B} (self : nat) (kwargs : dict pyval)
  : py (pstate B) pyval :=
  kw <- lift_exn (merge_kwargs "__call__" [("kind", PyStr "regret")] kwargs) ;;
  __call__ self kw.

(** The plot methods of the class, under their names, in the order of the
    class body. *)
Definition methods {B} `{Backend B}
  : dict (nat -> dict pyval -> py (pstate B) pyval) :=
  [("lpi", lpi);
   ("parallel_coordinates", parallel_coordinates);
   ("partial_dependencies", partial_dependencies);
   ("regret", regret)].

End PlotAccessor.

(** The message of the error for a name that is not in the table. *)
Definition unknown_kind_message (name : string) : string :=
  "Plot of kind '" ++ name
  ++ "' is not one of ['lpi', 'parallel_coordinates', 'partial_dependencies', 'regret']".

(** A computation that writes no accessor and creates none. *)
Definition keeps_accessors {B A} (c : py (pstate B) A) : Prop :=
  forall st, heap (snd (c st)) = heap st
             /\ next_ref (snd (c st)) = next_ref st.

(** A backend to run the module on: it returns the name of the plot as the
    figure and counts its calls. *)
Definition counting_backend : Backend nat :=
  fun fn _ _ n => (inr (PyStr fn), S n).

Definition initial_pstate : pstate nat :=
  {| heap := fun _ => Attrs None; next_ref := 0; backend_state := 0; trace := [] |}.

(** An experiment client, as the module sees it. *)
Definition an_experiment : pyval :=
  PyObj (PyObject 1 true "Experiment(name=exp, version=1)" "<ExperimentClient>").

(** The state after [PlotAccessor(an_experiment)] in [initial_pstate]:
    reference 0 is an accessor bound to [an_experiment]. *)
Definition bound_pstate : pstate nat :=
  {| heap := fun r => if Nat.eqb r 0 then Attrs (Some an_experiment) else Attrs None;
     next_ref := 1; backend_state := 0; trace := [] |}.

(** * [orion.core.cli.db_main] *)

(** A module attribute: a function, here of one argument, the sub-command
    registrar, which it may change before it returns or raises; or any other
    value. [R] is the registrar ([argparse]'s sub-parsers object). *)
Inductive attribute (R : Type) :=
| Function (f : R -> (exn + pyval) * R)
| Value (v : pyval).

Arguments Value {R} v.

Record pymodule (R : Type) := PyModule {
  mod_name : string;
  mod_dict : dict (attribute R)
}.

(** The state [load_modules_parser] runs in: the registrar its argument
    [subparsers] refers to, and the modules whose function has been called
    so far. *)
Record cli_state (R : Type) := CliState {
  registrar : R;
  invoked : list (pymodule R)
}.

(** [hasattr(m, name)] *)
Definition hasattr {R} (m : pymodule R) (name : string) : bool :=
  dict_contains (mod_dict m) name.

(** [getattr(m, name)] *)
Definition getattr {R} (m : pymodule R) (name : string) : exn + attribute R :=
  match dict_get (mod_dict m) name with
  | Some a => inr a
  | None => inl (AttributeError (mod_name m) name)
  end.

(** [a(subparsers)] for [a] an attribute of module [m]. *)
Definition call_attribute {R} (m : pymodule R) (a : attribute R)
  : py (cli_state R) pyval :=
  match a with
  | Function f => fun st =>
      let (r, reg) := f (registrar st) in
      (r, {| registrar := reg; invoked := (invoked st ++ [m])%list |})
  | Value v => raise (TypeError (NotCallable (type_name v)))
  end.

Section DbMain.

Context {R : Type}.

(** [orion.core.utils.module_import.load_modules_in_path], which the
    module imports. *)
Variable load_modules_in_path :
  string -> (pymodule R -> bool) -> py (cli_state R) (list (pymodule R)).

(** The loop [for module in modules: ...] of [load_modules_parser]. *)
Fixpoint register_modules (modules : list (pymodule R)) : py (cli_state R) unit :=
  match modules with
  | [] => ret tt
  | module :: rest =>
      get_parser <- lift_exn (getattr module "add_subparser") ;;
      call_attribute module get_parser ;;
      register_modules rest
  end.

Definition load_modules_parser : py (cli_state R) unit :=
  modules <- load_modules_in_path "orion.core.cli.db"
               (fun m => hasattr m "add_subparser") ;;
  register_modules modules.

End DbMain.

(** Modelled from the spec: [load_modules_in_path] of
    [orion.core.utils.module_import], whose source is not part of the two
    modules. The spec's [discover(namespace, predicate)]: a namespace that
    does not resolve is a [DiscoveryError]; otherwise every module of the
    namespace is evaluated against the predicate and those that fail it are
    left out, without an error. [packages] is the namespace resolution
    interface: the modules residing under each namespace. *)
Definition load_modules_in_path {R} (packages : dict (list (pymodule R)))
  (path : string) (filter_function : pymodule R -> bool)
  : py (cli_state R) (list (pymodule R)) :=
  match dict_get packages path with
  | None => raise (Raised "DiscoveryError" path)
  | Some candidates => ret (filter filter_function candidates)
  end.

(** Sub-command modules to run the registration on; the registrar is the
    list of sub-command names. *)
Definition adding (name : string) : attribute (list string) :=
  Function (fun reg => (inr PyNone, reg ++ [name])%list).

Definition failing (name : string) : attribute (list string) :=
  Function (fun reg => (inl (Raised "ArgumentError" name), reg ++ [name])%list).

Definition mod_setup := PyModule "orion.core.cli.db.setup" [("add_subparser", adding "setup")].
Definition mod_test := PyModule "orion.core.cli.db.test" [("add_subparser", failing "test")].
Definition mod_upgrade := PyModule "orion.core.cli.db.upgrade" [("add_subparser", adding "upgrade")].
Definition mod_init := PyModule "orion.core.cli.db.__init__" [("log", @Value (list string) PyNone)].

Definition initial_cli_state : cli_state (list string) :=
  {| registrar := []; invoked := [] |}.

(** The namespace the command scans, with these modules in it. *)
Definition db_packages : dict (list (pymodule (list string))) :=
  [("orion.core.cli.db", [mod_init; mod_setup; mod_test; mod_upgrade])].

(** A module whose [add_subparser] is not a function. *)
Definition mod_broken :=
  PyModule "orion.core.cli.db.broken" [("add_subparser", @Value (list string) (PyInt 3))].

(** What calling the [add_subparser] of module [m] does to the registrar. *)
Definition hook_effect {R} (m : pymodule R) (reg : R) : R :=
  match getattr m "add_subparser" with
  | inr (Function f) => snd (f reg)
  | _ => reg
  end.

(** ** Notions the properties are stated with *)

(** [d.get(k, default)] *)
Definition dict_get_default {V} (d : dict V) (k : string) (default : V) : V :=
  match dict_get d k with Some v => v | None => default end.

(** The entries of [d] whose key is none of [names], in order. *)
Definition dict_without {V} (names : list string) (d : dict V) : dict V :=
  filter (fun p => negb (existsb (String.eqb (fst p)) names)) d.

(** The value of a parameter that gets no argument. *)
Definition default_of (d : option pyval) : pyval :=
  match d with Some v => v | None => PyNone end.

(** A backend on which every plot fails. *)
Definition failing_backend : Backend nat :=
  fun fn _ _ n => (inl (Raised "PlotlyError" fn), S n).

Unset Implicit Arguments.

(** * Properties *)

(** ** Dictionaries and calls *)


Lemma dict_get_del_other {V} (d : dict V) (k k' : string) :
  k' <> k -> dict_get (dict_del d k) k' = dict_get d k'.
Proof.
  intros Hne. induction d as [|[k0 v] d IH]; simpl; [reflexivity|].
  destruct (String.eqb k k0) eqn:E.
  - apply String.eqb_eq in E. subst k0.
    destruct (String.eqb k' k) eqn:E'; [|exact IH].
    apply String.eqb_eq in E'. contradiction.
  - simpl. destruct (String.eqb k' k0); [reflexivity|exact IH].
Qed.

Lemma dict_del_absent {V} (d : dict V) (k : string) :
  dict_get d k = None -> dict_del d k = d.
Proof.
  induction d as [|[k' v] d IH]; simpl; [reflexivity|].
  destruct (String.eqb k k'); [discriminate|].
  intros Hn. rewrite (IH Hn). reflexivity.
Qed.

Lemma dict_get_None_keys {V} (d : dict V) (k : string) :
  dict_get d k = None <-> ~ In k (dict_keys d).
Proof.
  induction d as [|[k' v] d IH]; simpl.
  - split; [intros _ []|reflexivity].
  - destruct (String.eqb k k') eqn:E.
    + apply String.eqb_eq in E. subst k'.
      split; [discriminate|]. intros Hn. exfalso. apply Hn. left. reflexivity.
    + apply String.eqb_neq in E. rewrite IH. split.
      * intros Hn [Heq|Hin]; [congruence|contradiction].
      * intros Hn Hin. apply Hn. right. exact Hin.
Qed.

Lemma dict_contains_false {V} (d : dict V) (k : string) :
  dict_contains d k = false <-> ~ In k (dict_keys d).
Proof.
  rewrite <- dict_get_None_keys. unfold dict_contains.
  destruct (dict_get d k); split; congruence.
Qed.

Lemma dict_keys_app {V} (d1 d2 : dict V) :
  dict_keys (d1 ++ d2)%list = (dict_keys d1 ++ dict_keys d2)%list.
Proof. apply map_app. Qed.

(** A call [f(k1=v1, ..., **star)] whose [star] repeats none of the explicit
    keywords passes the explicit keywords followed by [star]. *)
Lemma merge_kwargs_disjoint (func : string) (star explicit : dict pyval) :
  NoDup (dict_keys star) ->
  (forall k, In k (dict_keys star) -> ~ In k (dict_keys explicit)) ->
  merge_kwargs func explicit star = inr (explicit ++ star)%list.
Proof.
  revert explicit. induction star as [|[k v] star IH]; intros explicit Hnd Hdis; simpl.
  - rewrite app_nil_r. reflexivity.
  - assert (Hk : dict_contains explicit k = false).
    { apply dict_contains_false. apply Hdis. left. reflexivity. }
    rewrite Hk. simpl in Hnd. inversion Hnd as [|? ? Hnotin Hnd']; subst.
    rewrite IH.
    + rewrite <- app_assoc. reflexivity.
    + exact Hnd'.
    + intros k' Hin. rewrite dict_keys_app. simpl. intros Hin'.
      apply in_app_or in Hin'. destruct Hin' as [Hin'|[Heq|[]]].
      * apply (Hdis k'); [right; exact Hin|exact Hin'].
      * subst k'. contradiction.
Qed.

Lemma existsb_eqb_In (s : string) (l : list string) :
  existsb (String.eqb s) l = true <-> In s l.
Proof.
  rewrite existsb_exists. split.
  - intros [x [Hin Heq]]. apply String.eqb_eq in Heq. subst. exact Hin.
  - intros Hin. exists s. split; [exact Hin|apply String.eqb_refl].
Qed.

(** ** The dispatch table *)

Lemma PLOT_METHODS_keys {B} `{Backend B} :
  dict_keys PLOT_METHODS
  = ["lpi"; "parallel_coordinates"; "partial_dependencies"; "regret"].
Proof. reflexivity. Qed.

Lemma PLOT_METHODS_get_In {B} `{Backend B} (name : string) (h : handler B) :
  dict_get PLOT_METHODS name = Some h -> In name (dict_keys PLOT_METHODS).
Proof.
  intros Hget. destruct (in_dec string_dec name (dict_keys PLOT_METHODS)) as [Hin|Hn].
  - exact Hin.
  - apply dict_get_None_keys in Hn. congruence.
Qed.

(** What [__call__] does, by cases on the popped name. *)
Lemma call_cases {B} `{Backend B} (self : nat) (kwargs : dict pyval) (st : pstate B) :
  PlotAccessor.__call__ self kwargs st =
  let (kind, kw) := dict_pop kwargs "kind" (PyStr "regret") in
  match keys_contains (dict_keys PLOT_METHODS) kind with
  | inl e => (inl e, st)
  | inr false =>
      (inl (ValueError ("Plot of kind '" ++ py_str kind ++ "' is not one of "
              ++ py_repr (PyList (map PyStr (dict_keys PLOT_METHODS))))), st)
  | inr true =>
      match dict_getitem PLOT_METHODS kind with
      | inl e => (inl e, st)
      | inr plot =>
          match _experiment (heap st self) with
          | Some e => plot [e] kw st
          | None => (inl (AttributeError "PlotAccessor" "_experiment"), st)
          end
      end
  end.
Proof.
  unfold PlotAccessor.__call__.
  destruct (dict_pop kwargs "kind" (PyStr "regret")) as [kind kw].
  cbn [bind Monad_py lift_exn].
  destruct (keys_contains (dict_keys PLOT_METHODS) kind) as [e|[|]]; cbn [negb];
    try reflexivity.
  destruct (dict_getitem PLOT_METHODS kind) as [e|plot]; [reflexivity|].
  unfold PlotAccessor.get_experiment. cbn [bind Monad_py get MonadState_py].
  destruct (_experiment (heap st self)); reflexivity.
Qed.

Lemma dict_pop_present {V} (d : dict V) (k : string) (v default : V) :
  dict_get d k = Some v -> dict_pop d k default = (v, dict_del d k).
Proof. intros Hget. unfold dict_pop. rewrite Hget. reflexivity. Qed.

Lemma dict_pop_absent {V} (d : dict V) (k : string) (default : V) :
  dict_get d k = None -> dict_pop d k default = (default, d).
Proof. intros Hget. unfold dict_pop. rewrite Hget. reflexivity. Qed.

Lemma dict_del_incl {V} (d : dict V) (k : string) : incl (dict_del d k) d.
Proof.
  induction d as [|[k' v] d IH]; simpl; [apply incl_refl|].
  destruct (String.eqb k k').
  - apply incl_tl. exact IH.
  - apply incl_cons; [left; reflexivity|apply incl_tl; exact IH].
Qed.

Lemma append_assoc (a b c : string) : (a ++ b) ++ c = a ++ (b ++ c).
Proof. induction a as [|x a IH]; simpl; [reflexivity|rewrite IH; reflexivity]. Qed.

(** A name in the table passes the membership test and resolves to its
    handler. *)
Lemma resolve_known {B} `{Backend B} (name : string) (h : handler B) :
  dict_get PLOT_METHODS name = Some h ->
  keys_contains (dict_keys PLOT_METHODS) (PyStr name) = inr true
  /\ dict_getitem PLOT_METHODS (PyStr name) = inr h.
Proof.
  intros Hget. split.
  - unfold keys_contains. cbn [hashable].
    rewrite (proj2 (existsb_eqb_In name _) (PLOT_METHODS_get_In _ _ Hget)).
    reflexivity.
  - unfold dict_getitem. cbn [hashable]. rewrite Hget. reflexivity.
Qed.

Lemma resolve_unknown {B} `{Backend B} (name : string) :
  ~ In name (dict_keys (PLOT_METHODS (B:=B))) ->
  keys_contains (dict_keys (PLOT_METHODS (B:=B))) (PyStr name) = inr false.
Proof.
  intros Hn. unfold keys_contains. cbn [hashable].
  destruct (existsb (String.eqb name) (dict_keys PLOT_METHODS)) eqn:E; [|reflexivity].
  apply existsb_eqb_In in E. contradiction.
Qed.

(** ** Construction *)

(** C1, as the claim states it, fails: constructing an accessor on [None]
    raises [ValueError("Parameter 'experiment' is None")], which is not a
    [ConfigurationError] and does not carry the text "subject required". *)
Lemma C1_counterexample :
  fst (PlotAccessor.new PyNone initial_pstate)
    = inl (ValueError "Parameter 'experiment' is None")
  /\ fst (PlotAccessor.new PyNone initial_pstate)
    <> inl (Raised "ConfigurationError" "subject required").
Proof. split; [reflexivity|discriminate]. Qed.

(** C1 (amended): constructing a [PlotAccessor] on a subject whose truth
    value is false (among them [None], the empty string and the empty list)
    raises [ValueError("Parameter 'experiment' is None")] at construction
    time: the backend is not called, and the object under construction is
    left without a subject. On every subject whose truth value is true,
    construction returns a new accessor bound to that subject. In both cases
    the accessors that exist already are untouched. *)
Theorem C1_construction {B} (experiment : pyval) (st : pstate B) :
  (truthy PyNone = false /\ truthy (PyStr "") = false /\ truthy (PyList []) = false)
  /\ (truthy experiment = false ->
      exists st',
        PlotAccessor.new experiment st
          = (inl (ValueError "Parameter 'experiment' is None"), st')
        /\ _experiment (heap st' (next_ref st)) = None
        /\ backend_state st' = backend_state st /\ trace st' = trace st
        /\ forall r, r <> next_ref st -> heap st' r = heap st r)
  /\ (truthy experiment = true ->
      exists st',
        PlotAccessor.new experiment st = (inr (next_ref st), st')
        /\ _experiment (heap st' (next_ref st)) = Some experiment
        /\ backend_state st' = backend_state st /\ trace st' = trace st
        /\ forall r, r <> next_ref st -> heap st' r = heap st r).
Proof.
  split; [repeat split|].
  unfold PlotAccessor.new, PlotAccessor.__init__, PlotAccessor.set_experiment.
  split; intros Ht; rewrite Ht; cbn; eexists; (split; [reflexivity|]); cbn;
    rewrite Nat.eqb_refl; repeat split;
    intros r Hr; apply Nat.eqb_neq in Hr; rewrite Hr; reflexivity.
Qed.

Lemma C1_construction_witness :
  (exists st',
     PlotAccessor.new PyNone initial_pstate
       = (inl (ValueError "Parameter 'experiment' is None"), st')
     /\ trace st' = [])
  /\ (exists st',
        PlotAccessor.new an_experiment initial_pstate = (inr 0, st')
        /\ _experiment (heap st' 0) = Some an_experiment).
Proof.
  destruct (C1_construction PyNone initial_pstate) as [_ [Hfail _]].
  destruct (C1_construction an_experiment initial_pstate) as [_ [_ Hok]].
  split.
  - destruct (Hfail eq_refl) as [st' [Hrun [_ [_ [Htr _]]]]].
    exists st'. split; [exact Hrun|exact Htr].
  - destruct (Hok eq_refl) as [st' [Hrun [Hbound _]]].
    exists st'. split; [exact Hrun|exact Hbound].
Defined.

(** ** Dispatch *)

(** C2: on any accessor, a call whose name is not a key of [PLOT_METHODS]
    raises a [ValueError] whose message lists every key of the table, and
    the state is the one the call started from: nothing reached a plot
    function or the backend. *)
Theorem C2_unknown_name_rejected {B} `{Backend B}
  (self : nat) (kwargs : dict pyval) (name : string) (st : pstate B) :
  dict_get kwargs "kind" = Some (PyStr name) ->
  ~ In name (dict_keys PLOT_METHODS) ->
  PlotAccessor.__call__ self kwargs st
    = (inl (ValueError (unknown_kind_message name)), st)
  /\ forall k, In k (dict_keys PLOT_METHODS) ->
       exists pre post,
         unknown_kind_message name = pre ++ ("'" ++ k ++ "'") ++ post.
Proof.
  intros Hkind Hunknown. split.
  - rewrite call_cases, (dict_pop_present _ _ _ (PyStr "regret") Hkind), (resolve_unknown _ Hunknown).
    reflexivity.
  - intros k Hin. rewrite PLOT_METHODS_keys in Hin. unfold unknown_kind_message.
    destruct Hin as [<-|[<-|[<-|[<-|[]]]]].
    + exists ("Plot of kind '" ++ name ++ "' is not one of ["),
        ", 'parallel_coordinates', 'partial_dependencies', 'regret']".
      rewrite !append_assoc. reflexivity.
    + exists ("Plot of kind '" ++ name ++ "' is not one of ['lpi', "),
        ", 'partial_dependencies', 'regret']".
      rewrite !append_assoc. reflexivity.
    + exists ("Plot of kind '" ++ name
              ++ "' is not one of ['lpi', 'parallel_coordinates', "),
        ", 'regret']".
      rewrite !append_assoc. reflexivity.
    + exists ("Plot of kind '" ++ name
              ++ "' is not one of ['lpi', 'parallel_coordinates', 'partial_dependencies', "),
        "]".
      rewrite !append_assoc. reflexivity.
Qed.

Lemma C2_unknown_name_rejected_witness :
  PlotAccessor.__call__ (H:=counting_backend) 0
    [("kind", PyStr "nonexistent"); ("title", PyStr "t")] initial_pstate
  = (inl (ValueError
       "Plot of kind 'nonexistent' is not one of ['lpi', 'parallel_coordinates', 'partial_dependencies', 'regret']"),
     initial_pstate).
Proof.
  refine (proj1 (C2_unknown_name_rejected (H:=counting_backend) 0
            [("kind", PyStr "nonexistent"); ("title", PyStr "t")]
            "nonexistent" initial_pstate eq_refl _)).
  cbn. intros [E|[E|[E|[E|[]]]]]; discriminate E.
Defined.

(** C3: a call without a name runs the plot "regret": on every accessor and
    every options that do not themselves name a plot, the call is the call
    with [kind="regret"] and the same options, and on an accessor bound to
    [e] both are [regret(e, **options)]. *)
Theorem C3_default_is_regret {B} `{Backend B}
  (self : nat) (options : dict pyval) (st : pstate B) :
  dict_get options "kind" = None ->
  PlotAccessor.__call__ self options st
    = PlotAccessor.__call__ self (("kind", PyStr "regret") :: options) st
  /\ forall e, _experiment (heap st self) = Some e ->
       PlotAccessor.__call__ self options st = regret [e] options st.
Proof.
  intros Hnone.
  assert (Hpop : dict_pop (("kind", PyStr "regret") :: options) "kind" (PyStr "regret")
                 = (PyStr "regret", options)).
  { unfold dict_pop. simpl. rewrite (dict_del_absent _ _ Hnone). reflexivity. }
  split.
  - rewrite !call_cases, Hpop, (dict_pop_absent _ _ (PyStr "regret") Hnone). reflexivity.
  - intros e He. rewrite call_cases, (dict_pop_absent _ _ (PyStr "regret") Hnone).
    destruct (resolve_known "regret" regret eq_refl) as [-> ->].
    rewrite He. reflexivity.
Qed.

Lemma C3_default_is_regret_witness :
  PlotAccessor.__call__ (H:=counting_backend) 0 [("title", PyStr "t")] bound_pstate
  = PlotAccessor.__call__ (H:=counting_backend) 0
      [("kind", PyStr "regret"); ("title", PyStr "t")] bound_pstate
  /\ PlotAccessor.__call__ (H:=counting_backend) 0 [("title", PyStr "t")] bound_pstate
     = regret (H:=counting_backend) [an_experiment] [("title", PyStr "t")] bound_pstate
  /\ fst (PlotAccessor.__call__ (H:=counting_backend) 0 [("title", PyStr "t")]
            bound_pstate)
     = inr (PyStr "regret").
Proof.
  destruct (C3_default_is_regret (H:=counting_backend) 0
              [("title", PyStr "t")] bound_pstate eq_refl) as [Hsame Hregret].
  split; [exact Hsame|]. split; [exact (Hregret an_experiment eq_refl)|].
  rewrite (Hregret an_experiment eq_refl). reflexivity.
Defined.

(** A call that names a key of the table, on an accessor bound to [e]. *)
Lemma call_known {B} `{Backend B}
  (self : nat) (kwargs : dict pyval) (name : string) (h : handler B)
  (e : pyval) (st : pstate B) :
  _experiment (heap st self) = Some e ->
  dict_get kwargs "kind" = Some (PyStr name) ->
  dict_get PLOT_METHODS name = Some h ->
  PlotAccessor.__call__ self kwargs st = h [e] (dict_del kwargs "kind") st.
Proof.
  intros He Hkind Hh.
  rewrite call_cases, (dict_pop_present _ _ _ (PyStr "regret") Hkind).
  destruct (resolve_known _ _ Hh) as [-> ->]. rewrite He. reflexivity.
Qed.

(** C4: on an accessor bound to [e], a call that names a key of
    [PLOT_METHODS] is the call of the function under that key on [e] and
    the options, the name taken out: same result, same final state, on
    every call anew. The options passed on are entries of the call's own
    keywords, none is added. *)
Theorem C4_pass_through {B} `{Backend B}
  (self : nat) (kwargs : dict pyval) (name : string) (h : handler B)
  (e : pyval) (st : pstate B) :
  _experiment (heap st self) = Some e ->
  dict_get kwargs "kind" = Some (PyStr name) ->
  dict_get PLOT_METHODS name = Some h ->
  PlotAccessor.__call__ self kwargs st = h [e] (dict_del kwargs "kind") st
  /\ incl (dict_del kwargs "kind") kwargs.
Proof.
  intros He Hkind Hh. split; [|apply dict_del_incl].
  exact (call_known self kwargs name h e st He Hkind Hh).
Qed.

Lemma C4_pass_through_witness :
  PlotAccessor.__call__ (H:=counting_backend) 0
    [("n_points", PyInt 5); ("kind", PyStr "lpi")] bound_pstate
  = lpi (H:=counting_backend) [an_experiment] [("n_points", PyInt 5)] bound_pstate.
Proof.
  exact (proj1 (C4_pass_through (H:=counting_backend) 0
                  [("n_points", PyInt 5); ("kind", PyStr "lpi")]
                  "lpi" lpi an_experiment bound_pstate eq_refl eq_refl eq_refl)).
Defined.

(** C5: the class has one plot method per key of [PLOT_METHODS], under the
    same name, and each is the generic call with [kind] set to that name:
    on every accessor and every options (a dictionary, which does not name
    a plot itself), the method and the generic call have the same result
    and final state. *)
Theorem C5_convenience_methods {B} `{Backend B} :
  dict_keys PlotAccessor.methods = dict_keys PLOT_METHODS
  /\ NoDup (dict_keys PLOT_METHODS)
  /\ forall name m, In (name, m) PlotAccessor.methods ->
       forall (self : nat) (options : dict pyval) (st : pstate B),
         NoDup (dict_keys options) ->
         dict_get options "kind" = None ->
         m self options st
           = PlotAccessor.__call__ self (("kind", PyStr name) :: options) st.
Proof.
  split; [reflexivity|]. split.
  - rewrite PLOT_METHODS_keys.
    repeat (constructor; [cbn; intuition discriminate|]). constructor.
  - intros name m Hin self options st Hnd Hnone.
    assert (Hmerge : forall v, merge_kwargs "__call__" [("kind", v)] options
                               = inr (("kind", v) :: options)).
    { intros v. apply (merge_kwargs_disjoint "__call__" options [("kind", v)] Hnd).
      intros k Hk [<-|[]]. apply dict_get_None_keys in Hnone. contradiction. }
    destruct Hin as [E|[E|[E|[E|[]]]]]; injection E as <- <-;
      [unfold PlotAccessor.lpi | unfold PlotAccessor.parallel_coordinates
      |unfold PlotAccessor.partial_dependencies | unfold PlotAccessor.regret];
      rewrite Hmerge; reflexivity.
Qed.

Lemma C5_convenience_methods_witness :
  PlotAccessor.parallel_coordinates (H:=counting_backend) 0
    [("order", PyList [PyStr "x"; PyStr "y"])] bound_pstate
  = PlotAccessor.__call__ (H:=counting_backend) 0
      [("kind", PyStr "parallel_coordinates"); ("order", PyList [PyStr "x"; PyStr "y"])]
      bound_pstate.
Proof.
  refine (proj2 (proj2 (C5_convenience_methods (H:=counting_backend)))
            "parallel_coordinates" PlotAccessor.parallel_coordinates _
            0 [("order", PyList [PyStr "x"; PyStr "y"])] bound_pstate _ eq_refl).
  - right. left. reflexivity.
  - constructor; [intros []|constructor].
Defined.

Lemma keys_contains_true (keys : list string) (kind : pyval) :
  keys_contains keys kind = inr true ->
  exists s, kind = PyStr s /\ In s keys.
Proof.
  unfold keys_contains. destruct kind; cbn; try discriminate.
  intros E. injection E as E. exists s. split; [reflexivity|].
  apply existsb_eqb_In. exact E.
Qed.

Lemma PLOT_METHODS_In_get {B} `{Backend B} (name : string) :
  In name (dict_keys PLOT_METHODS) ->
  exists h : handler B, dict_get PLOT_METHODS name = Some h.
Proof.
  intros Hin. destruct (dict_get PLOT_METHODS name) as [h|] eqn:E.
  - exists h. reflexivity.
  - apply dict_get_None_keys in E. contradiction.
Qed.



(** ** The accessors are left alone *)

Section Frame.

Context {B : Type} `{Backend B}.

Lemma keeps_ret {A} (x : A) : keeps_accessors (ret x : py (pstate B) A).
Proof. intros st. split; reflexivity. Qed.

Lemma keeps_raise {A} (e : exn) : keeps_accessors (raise e : py (pstate B) A).
Proof. intros st. split; reflexivity. Qed.

Lemma keeps_lift_exn {A} (r : exn + A) :
  keeps_accessors (lift_exn r : py (pstate B) A).
Proof. intros st. split; reflexivity. Qed.

Lemma keeps_bind {A A'} (c : py (pstate B) A) (f : A -> py (pstate B) A') :
  keeps_accessors c -> (forall a, keeps_accessors (f a)) ->
  keeps_accessors (bind c f).
Proof.
  intros Hc Hf st. cbn [bind Monad_py].
  destruct (Hc st) as [Hh Hn]. destruct (c st) as [[e|a] st1]; cbn [snd] in *.
  - split; assumption.
  - destruct (Hf a st1) as [Hh' Hn']. rewrite Hh', Hn'. split; assumption.
Qed.

Lemma keeps_backend_call (fn : string) (args : list pyval) (kwargs : dict pyval) :
  keeps_accessors (backend_call fn args kwargs).
Proof.
  intros st. unfold backend_call.
  destruct (backend fn args kwargs (backend_state st)). split; reflexivity.
Qed.

Lemma keeps_get_experiment (self : nat) :
  keeps_accessors (PlotAccessor.get_experiment (B:=B) self).
Proof.
  intros st. unfold PlotAccessor.get_experiment. cbn.
  destruct (_experiment (heap st self)); split; reflexivity.
Qed.

Ltac keeps :=
  repeat first
    [ apply keeps_bind; [|intros]
    | apply keeps_lift_exn
    | apply keeps_backend_call
    | apply keeps_get_experiment
    | apply keeps_raise
    | apply keeps_ret
    | match goal with p : (_ * _)%type |- _ => destruct p end ].

Lemma keeps_handler (name : string) (h : handler B) :
  dict_get PLOT_METHODS name = Some h ->
  forall args kw, keeps_accessors (h args kw).
Proof.
  unfold PLOT_METHODS. cbn [dict_get]. intros Hget args kw.
  repeat match type of Hget with
         | (if ?b then _ else _) = _ => destruct b
         end;
    try discriminate; injection Hget as <-;
    [unfold lpi | unfold parallel_coordinates
    |unfold partial_dependencies | unfold regret]; keeps.
Qed.

Lemma keeps_call (self : nat) (kwargs : dict pyval) :
  keeps_accessors (PlotAccessor.__call__ self kwargs).
Proof.
  intros st. rewrite call_cases.
  destruct (dict_pop kwargs "kind" (PyStr "regret")) as [kind kw].
  destruct (keys_contains (dict_keys PLOT_METHODS) kind) as [e|[|]];
    try (split; reflexivity).
  destruct (dict_getitem PLOT_METHODS kind) as [e|plot] eqn:Hplot;
    [split; reflexivity|].
  destruct (_experiment (heap st self)) as [e|]; [|split; reflexivity].
  unfold dict_getitem in Hplot.
  destruct (hashable kind); [|discriminate].
  destruct kind; try discriminate.
  destruct (dict_get PLOT_METHODS s) as [h|] eqn:Hh; [|discriminate].
  injection Hplot as <-. exact (keeps_handler s h Hh [e] kw st).
Qed.

Lemma keeps_method (name : string)
  (m : nat -> dict pyval -> py (pstate B) pyval) :
  In (name, m) PlotAccessor.methods ->
  forall self kwargs, keeps_accessors (m self kwargs).
Proof.
  intros Hin self kwargs.
  destruct Hin as [E|[E|[E|[E|[]]]]]; injection E as <- <-;
    [unfold PlotAccessor.lpi | unfold PlotAccessor.parallel_coordinates
    |unfold PlotAccessor.partial_dependencies | unfold PlotAccessor.regret];
    (apply keeps_bind; [apply keeps_lift_exn|intros; apply keeps_call]).
Qed.

End Frame.

(** C10: the generic call and the four plot methods leave every accessor as
    it was, whatever the outcome: after the operation an accessor bound to
    [e] is still bound to [e], and a further call on it that names a key of
    the table is the call of that function on [e]. *)
Theorem C10_subject_unchanged {B} `{Backend B}
  (self : nat) (kwargs : dict pyval) (st : pstate B)
  (name : string) (op : nat -> dict pyval -> py (pstate B) pyval) :
  In (name, op) (("__call__", PlotAccessor.__call__) :: PlotAccessor.methods) ->
  let st' := snd (op self kwargs st) in
  heap st' = heap st
  /\ forall e kwargs2 name2 h,
       _experiment (heap st self) = Some e ->
       dict_get kwargs2 "kind" = Some (PyStr name2) ->
       dict_get PLOT_METHODS name2 = Some h ->
       PlotAccessor.__call__ self kwargs2 st' = h [e] (dict_del kwargs2 "kind") st'.
Proof.
  intros Hin st'.
  assert (Hheap : heap st' = heap st).
  { destruct Hin as [E|Hin].
    - injection E as <- <-. apply keeps_call.
    - apply (keeps_method name op Hin). }
  split; [exact Hheap|].
  intros e kwargs2 name2 h He Hkind Hh.
  apply (call_known self kwargs2 name2 h e st'); [|exact Hkind|exact Hh].
  rewrite Hheap. exact He.
Qed.

Lemma C10_subject_unchanged_witness :
  heap (snd (PlotAccessor.lpi (H:=counting_backend) 0
               [("n_points", PyInt 5)] bound_pstate)) = heap bound_pstate
  /\ heap (snd (PlotAccessor.__call__ (H:=counting_backend) 0
                  [("kind", PyStr "nonexistent")] bound_pstate)) = heap bound_pstate.
Proof.
  split.
  - refine (proj1 (C10_subject_unchanged (H:=counting_backend) 0
                     [("n_points", PyInt 5)] bound_pstate "lpi" PlotAccessor.lpi _)).
    right. left. reflexivity.
  - refine (proj1 (C10_subject_unchanged (H:=counting_backend) 0
                     [("kind", PyStr "nonexistent")] bound_pstate
                     "__call__" PlotAccessor.__call__ _)).
    left. reflexivity.
Defined.

(** ** Registration *)

Section Registration.

Context {R : Type}.

(** One turn of the loop on a module whose [add_subparser] is a function. *)
Lemma register_modules_cons (m : pymodule R) (rest : list (pymodule R))
  (f : R -> (exn + pyval) * R) (st : cli_state R) :
  getattr m "add_subparser" = inr (Function f) ->
  register_modules (m :: rest) st =
  match f (registrar st) with
  | (inl e, reg) =>
      (inl e, {| registrar := reg; invoked := (invoked st ++ [m])%list |})
  | (inr _, reg) =>
      register_modules rest
        {| registrar := reg; invoked := (invoked st ++ [m])%list |}
  end.
Proof.
  intros Hattr. cbn [register_modules bind Monad_py lift_exn].
  rewrite Hattr. cbn [call_attribute].
  destruct (f (registrar st)) as [[e|v] reg]; reflexivity.
Qed.

(** The loop over [pre ++ rest] is the loop over [pre], then, if it
    returned, the loop over [rest]. *)
Lemma register_modules_app (pre rest : list (pymodule R)) (st : cli_state R) :
  register_modules (pre ++ rest) st =
  match register_modules pre st with
  | (inl e, st1) => (inl e, st1)
  | (inr _, st1) => register_modules rest st1
  end.
Proof.
  revert st. induction pre as [|m pre IH]; intros st; [reflexivity|].
  cbn [app register_modules bind Monad_py lift_exn].
  destruct (getattr m "add_subparser") as [e|a]; [reflexivity|].
  destruct (call_attribute m a st) as [[e|v] st1]; [reflexivity|].
  apply IH.
Qed.

(** A loop that returned has called every module of its list, in order. *)
Lemma register_modules_returned (ms : list (pymodule R)) (st st1 : cli_state R) :
  register_modules ms st = (inr tt, st1) ->
  invoked st1 = (invoked st ++ ms)%list.
Proof.
  revert st. induction ms as [|m ms IH]; intros st.
  - cbn. intros E. injection E as <-. rewrite app_nil_r. reflexivity.
  - cbn [register_modules bind Monad_py lift_exn].
    destruct (getattr m "add_subparser") as [e|[f|v]]; [discriminate| |discriminate].
    cbn [call_attribute]. destruct (f (registrar st)) as [[e|v] reg]; [discriminate|].
    intros E. rewrite (IH _ E). cbn [invoked]. rewrite <- app_assoc. reflexivity.
Qed.

(** Whatever the outcome, the modules a loop calls are modules of its
    list. *)
Lemma register_modules_invoked (ms : list (pymodule R)) (st : cli_state R) :
  exists called,
    invoked (snd (register_modules ms st)) = (invoked st ++ called)%list
    /\ incl called ms.
Proof.
  revert st. induction ms as [|m ms IH]; intros st.
  - exists []. cbn. rewrite app_nil_r. split; [reflexivity|apply incl_refl].
  - cbn [register_modules bind Monad_py lift_exn].
    destruct (getattr m "add_subparser") as [e|[f|v]].
    + exists []. cbn. rewrite app_nil_r. split; [reflexivity|intros x []].
    + cbn [call_attribute]. destruct (f (registrar st)) as [[e|v] reg].
      * exists [m]. cbn. split; [reflexivity|].
        intros x [<-|[]]. left. reflexivity.
      * destruct (IH {| registrar := reg; invoked := (invoked st ++ [m])%list |})
          as [called [Hinv Hincl]].
        exists (m :: called). rewrite Hinv. cbn [invoked].
        rewrite <- app_assoc. split; [reflexivity|].
        apply incl_cons; [left; reflexivity|apply incl_tl; exact Hincl].
    + exists []. cbn. rewrite app_nil_r. split; [reflexivity|intros x []].
Qed.

(** C7: registration is fail-fast. When the modules found are
    [pre ++ m :: post], the functions of [pre] return and that of [m],
    at position [length pre], raises [err], then [load_modules_parser]
    raises [err]; the modules called are those of [pre] and [m], none of
    [post]; and the registrar is the one the failing function left,
    started from the registrar the functions of [pre] had built: nothing
    is undone. *)
Theorem C7_fail_fast
  (loader : string -> (pymodule R -> bool) -> py (cli_state R) (list (pymodule R)))
  (pre post : list (pymodule R)) (m : pymodule R)
  (f : R -> (exn + pyval) * R) (err : exn) (reg : R)
  (st st0 st1 : cli_state R) :
  loader "orion.core.cli.db" (fun m => hasattr m "add_subparser") st
    = (inr (pre ++ m :: post)%list, st0) ->
  register_modules pre st0 = (inr tt, st1) ->
  getattr m "add_subparser" = inr (Function f) ->
  f (registrar st1) = (inl err, reg) ->
  load_modules_parser loader st
  = (inl err, {| registrar := reg; invoked := (invoked st0 ++ pre ++ [m])%list |}).
Proof.
  intros Hload Hpre Hattr Hf.
  unfold load_modules_parser. cbn [bind Monad_py]. rewrite Hload.
  rewrite register_modules_app, Hpre.
  rewrite (register_modules_cons m post f st1 Hattr), Hf.
  rewrite (register_modules_returned pre st0 st1 Hpre), <- app_assoc.
  reflexivity.
Qed.

Lemma filter_none (p : pymodule R -> bool) (l : list (pymodule R)) :
  (forall m, In m l -> p m = false) -> filter p l = [].
Proof.
  induction l as [|x l IH]; intros Hall; [reflexivity|].
  cbn. rewrite (Hall x (or_introl eq_refl)).
  apply IH. intros m Hin. apply Hall. right. exact Hin.
Qed.

(** C6: with the loader of the spec, every module whose function
    [load_modules_parser] calls has the attribute [add_subparser]; and a
    module of the namespace without it changes nothing: with or without
    it in the namespace, result and final state are the same. *)
Theorem C6_only_capable_modules_invoked
  (packages : dict (list (pymodule R))) (st : cli_state R) :
  (exists called,
     invoked (snd (load_modules_parser (load_modules_in_path packages) st))
       = (invoked st ++ called)%list
     /\ Forall (fun m => hasattr m "add_subparser" = true) called)
  /\ forall pre m post packages',
       dict_get packages "orion.core.cli.db" = Some (pre ++ m :: post)%list ->
       dict_get packages' "orion.core.cli.db" = Some (pre ++ post)%list ->
       hasattr m "add_subparser" = false ->
       load_modules_parser (load_modules_in_path packages) st
       = load_modules_parser (load_modules_in_path packages') st.
Proof.
  split.
  - unfold load_modules_parser, load_modules_in_path. cbn [bind Monad_py].
    destruct (dict_get packages "orion.core.cli.db") as [candidates|].
    + cbn [ret Monad_py].
      destruct (register_modules_invoked
                  (filter (fun m => hasattr m "add_subparser") candidates) st)
        as [called [Hinv Hincl]].
      exists called. split; [exact Hinv|].
      apply Forall_forall. intros x Hx.
      apply Hincl, filter_In in Hx. exact (proj2 Hx).
    + exists []. cbn. rewrite app_nil_r. split; [reflexivity|constructor].
  - intros pre m post packages' Hns Hns' Hm.
    unfold load_modules_parser, load_modules_in_path. cbn [bind Monad_py].
    rewrite Hns, Hns'. cbn [ret Monad_py].
    rewrite !filter_app. cbn [filter]. rewrite Hm. reflexivity.
Qed.

(** C8: with the loader of the spec, when the namespace resolves and none
    of its modules qualifies, discovery gives the empty list, not an
    error, and [load_modules_parser] then returns in the state it started
    from: no function called, the registrar as it was. *)
Theorem C8_no_candidates
  (packages : dict (list (pymodule R)))
  (candidates : list (pymodule R)) (st : cli_state R) :
  dict_get packages "orion.core.cli.db" = Some candidates ->
  (forall m, In m candidates -> hasattr m "add_subparser" = false) ->
  load_modules_in_path packages "orion.core.cli.db"
    (fun m => hasattr m "add_subparser") st = (inr [], st)
  /\ load_modules_parser (load_modules_in_path packages) st = (inr tt, st).
Proof.
  intros Hns Hnone.
  unfold load_modules_parser, load_modules_in_path.
  cbn [bind Monad_py]. rewrite Hns. cbn [ret Monad_py].
  rewrite (filter_none _ _ Hnone). split; reflexivity.
Qed.

End Registration.

Lemma C6_only_capable_modules_invoked_witness :
  (exists called,
     invoked (snd (load_modules_parser (load_modules_in_path db_packages)
                     initial_cli_state))
       = (invoked initial_cli_state ++ called)%list
     /\ Forall (fun m => hasattr m "add_subparser" = true) called)
  /\ load_modules_parser (load_modules_in_path db_packages) initial_cli_state
     = load_modules_parser
         (load_modules_in_path
            [("orion.core.cli.db", [mod_setup; mod_test; mod_upgrade])])
         initial_cli_state.
Proof.
  destruct (C6_only_capable_modules_invoked db_packages initial_cli_state)
    as [Hsound Hsilent].
  split; [exact Hsound|].
  exact (Hsilent [] mod_init [mod_setup; mod_test; mod_upgrade]
           [("orion.core.cli.db", [mod_setup; mod_test; mod_upgrade])]
           eq_refl eq_refl eq_refl).
Defined.

Lemma C7_fail_fast_witness :
  load_modules_parser
    (fun _ _ st => (inr [mod_setup; mod_test; mod_upgrade], st))
    initial_cli_state
  = (inl (Raised "ArgumentError" "test"),
     {| registrar := ["setup"; "test"]; invoked := [mod_setup; mod_test] |}).
Proof.
  exact (C7_fail_fast
           (fun _ _ st => (inr [mod_setup; mod_test; mod_upgrade], st))
           [mod_setup] [mod_upgrade] mod_test
           (fun reg => (inl (Raised "ArgumentError" "test"), reg ++ ["test"])%list)
           (Raised "ArgumentError" "test") ["setup"; "test"]
           initial_cli_state initial_cli_state
           {| registrar := ["setup"]; invoked := [mod_setup] |}
           eq_refl eq_refl eq_refl eq_refl).
Defined.

Lemma C8_no_candidates_witness :
  load_modules_in_path [("orion.core.cli.db", [mod_init])] "orion.core.cli.db"
    (fun m => hasattr m "add_subparser") initial_cli_state
  = (inr [], initial_cli_state)
  /\ load_modules_parser
       (load_modules_in_path [("orion.core.cli.db", [mod_init])])
       initial_cli_state
     = (inr tt, initial_cli_state).
Proof.
  refine (C8_no_candidates [("orion.core.cli.db", [mod_init])] [mod_init]
            initial_cli_state eq_refl _).
  intros m [<-|[]]. reflexivity.
Defined.

(** * Further properties *)

(** ** Binding the arguments of a call *)

Lemma dict_get_set_same {V} (d : dict V) (k : string) (v : V) :
  dict_get (dict_set d k v) k = Some v.
Proof.
  induction d as [|[k' v'] d IH]; cbn.
  - rewrite String.eqb_refl. reflexivity.
  - destruct (String.eqb k k') eqn:E; cbn; rewrite E; [reflexivity|exact IH].
Qed.

Lemma dict_get_set_other {V} (d : dict V) (k k' : string) (v : V) :
  k' <> k -> dict_get (dict_set d k v) k' = dict_get d k'.
Proof.
  intros Hne. induction d as [|[k0 v0] d IH]; cbn.
  - apply String.eqb_neq in Hne. rewrite Hne. reflexivity.
  - destruct (String.eqb k k0) eqn:E; cbn.
    + apply String.eqb_eq in E. subst k0.
      destruct (String.eqb k' k) eqn:E'; [|reflexivity].
      apply String.eqb_eq in E'. contradiction.
    + destruct (String.eqb k' k0); [reflexivity|exact IH].
Qed.

Lemma dict_keys_set_present {V} (d : dict V) (k : string) (v w : V) :
  dict_get d k = Some w -> dict_keys (dict_set d k v) = dict_keys d.
Proof.
  unfold dict_keys. induction d as [|[k' v'] d IH]; cbn; [discriminate|].
  destruct (String.eqb k k') eqn:E; cbn; [reflexivity|].
  intros Hget. f_equal. exact (IH Hget).
Qed.

Lemma existsb_eqb_keys {V} (d : dict V) (k : string) :
  existsb (String.eqb k) (dict_keys d) = dict_contains d k.
Proof.
  unfold dict_contains. induction d as [|[k' v] d IH]; cbn; [reflexivity|].
  destruct (String.eqb k k'); [reflexivity|exact IH].
Qed.

Lemma dict_get_In_keys {V} (d : dict V) (k : string) (v : V) :
  dict_get d k = Some v -> In k (dict_keys d).
Proof.
  intros Hget. destruct (in_dec string_dec k (dict_keys d)) as [Hin|Hn]; [exact Hin|].
  apply dict_get_None_keys in Hn. congruence.
Qed.

Lemma dict_without_keys {V} (names : list string) (d : dict V) (k : string) :
  In k (dict_keys (dict_without names d)) -> In k (dict_keys d) /\ ~ In k names.
Proof.
  unfold dict_without, dict_keys. intros Hin.
  apply in_map_iff in Hin. destruct Hin as [[k' v] [<- Hin]].
  apply filter_In in Hin. destruct Hin as [Hin Hnot]. cbn in *. split.
  - apply in_map_iff. exists (k', v). split; [reflexivity|exact Hin].
  - intros Hn. apply existsb_eqb_In in Hn. rewrite Hn in Hnot. discriminate.
Qed.

Lemma dict_without_NoDup {V} (names : list string) (d : dict V) :
  NoDup (dict_keys d) -> NoDup (dict_keys (dict_without names d)).
Proof.
  induction d as [|[k v] d IH]; cbn; [constructor|].
  intros Hnd. inversion Hnd as [|? ? Hnotin Hnd']; subst.
  destruct (negb (existsb (String.eqb k) names)); [|exact (IH Hnd')].
  cbn. constructor; [|exact (IH Hnd')].
  intros Hin. apply Hnotin. exact (proj1 (dict_without_keys names d k Hin)).
Qed.

Lemma dict_get_without {V} (names : list string) (d : dict V) (k : string) :
  ~ In k names -> dict_get (dict_without names d) k = dict_get d k.
Proof.
  intros Hn. induction d as [|[k' v] d IH]; cbn; [reflexivity|].
  destruct (existsb (String.eqb k') names) eqn:E; cbn.
  - apply existsb_eqb_In in E.
    destruct (String.eqb k k') eqn:E'; [|exact IH].
    apply String.eqb_eq in E'. subst k'. contradiction.
  - destruct (String.eqb k k'); [reflexivity|exact IH].
Qed.

Lemma bind_positional_nil (func : string) (params : list (string * option pyval)) :
  bind_positional func params [] = inr (map (fun p => (fst p, None)) params).
Proof. destruct params as [|[n d] ps]; reflexivity. Qed.

Lemma dict_get_empty_slots (params : list (string * option pyval)) (k : string) :
  dict_get (map (fun p => (fst p, @None pyval)) params) k
  = if existsb (String.eqb k) (map fst params) then Some None else None.
Proof.
  induction params as [|[n d] ps IH]; cbn; [reflexivity|].
  destruct (String.eqb k n); [reflexivity|exact IH].
Qed.

(** Keywords that each hit an empty slot, or no slot of a function with a
    variadic keyword parameter, all bind: every keyword under a parameter
    name fills that parameter, the others are collected in order. *)
Lemma bind_keywords_ok (func : string) (varkw : bool) (kw : dict pyval) :
  forall (slots : dict (option pyval)) (extra : dict pyval),
    NoDup (dict_keys kw) ->
    (forall k, In k (dict_keys kw) ->
       dict_get slots k = Some None \/ (dict_get slots k = None /\ varkw = true)) ->
    exists slots',
      bind_keywords func varkw slots extra kw
        = inr (slots', (extra ++ dict_without (dict_keys slots) kw)%list)
      /\ forall p, dict_get slots' p
                   = match dict_get slots p, dict_get kw p with
                     | Some _, Some v => Some (Some v)
                     | s, _ => s
                     end.
Proof.
  induction kw as [|[k v] kw IH]; intros slots extra Hnd Hok.
  - exists slots. cbn. rewrite app_nil_r. split; [reflexivity|].
    intros p. destruct (dict_get slots p); reflexivity.
  - cbn in Hnd. inversion Hnd as [|? ? Hnotin Hnd']; subst.
    apply dict_get_None_keys in Hnotin.
    cbn [bind_keywords]. destruct (Hok k (or_introl eq_refl)) as [Hk|[Hk Hvar]].
    + rewrite Hk.
      destruct (IH (dict_set slots k (Some v)) extra Hnd') as [slots' [Hrun Hget]].
      { intros k' Hin. assert (Hne : k' <> k).
        { intros ->. apply dict_get_None_keys in Hnotin. contradiction. }
        rewrite (dict_get_set_other _ _ _ _ Hne). apply Hok. right. exact Hin. }
      exists slots'. split.
      * rewrite Hrun, (dict_keys_set_present _ _ _ _ Hk).
        unfold dict_without at 2. cbn [filter fst].
        rewrite existsb_eqb_keys. unfold dict_contains. rewrite Hk. reflexivity.
      * intros p. rewrite Hget. cbn [dict_get].
        destruct (String.eqb p k) eqn:E.
        -- apply String.eqb_eq in E. subst p.
           rewrite dict_get_set_same, Hnotin, Hk. reflexivity.
        -- apply String.eqb_neq in E. rewrite (dict_get_set_other _ _ _ _ E).
           reflexivity.
    + rewrite Hk. subst varkw.
      destruct (IH slots (extra ++ [(k, v)])%list Hnd') as [slots' [Hrun Hget]].
      { intros k' Hin. apply Hok. right. exact Hin. }
      exists slots'. split.
      * rewrite Hrun. unfold dict_without at 2. cbn [filter fst].
        rewrite existsb_eqb_keys. unfold dict_contains. rewrite Hk. cbn [negb].
        rewrite <- app_assoc. reflexivity.
      * intros p. rewrite Hget. cbn [dict_get].
        destruct (String.eqb p k) eqn:E; [|reflexivity].
        apply String.eqb_eq in E. subst p. rewrite Hk. reflexivity.
Qed.

Lemma bind_defaults_ok (func : string) (slots : dict (option pyval))
  (params : list (string * option pyval)) :
  (forall n, In (n, None) params -> exists v, dict_get slots n = Some (Some v)) ->
  bind_defaults func params slots
  = inr (map (fun p => (fst p,
                        match dict_get slots (fst p) with
                        | Some (Some v) => v
                        | _ => default_of (snd p)
                        end)) params).
Proof.
  induction params as [|[n d] ps IH]; intros Hreq; [reflexivity|].
  cbn [bind_defaults map fst snd].
  rewrite IH; [|intros n' Hin; apply Hreq; right; exact Hin].
  destruct (dict_get slots n) as [[v|]|] eqn:Hn; destruct d as [x|]; cbn;
    try reflexivity;
    destruct (Hreq n (or_introl eq_refl)) as [v' Hv]; congruence.
Qed.

(** A call [f(e, **kw)] of a function whose parameters after the first all
    have defaults: when the keywords are a dictionary, none names the first
    parameter and, unless [f] has a variadic keyword parameter, each names a
    parameter, the call binds. The first parameter is [e], every other one
    the keyword under its name or else its default, and the variadic
    parameter collects the remaining keywords in order. *)
Lemma bind_arguments_ok (sg : signature) (n0 : string) (d0 : option pyval)
  (ps : list (string * option pyval)) (e : pyval) (kw : dict pyval) :
  sig_params sg = (n0, d0) :: ps ->
  ~ In n0 (map fst ps) ->
  (forall n, ~ In (n, None) ps) ->
  NoDup (dict_keys kw) ->
  dict_get kw n0 = None ->
  (sig_varkw sg = false -> forall k, In k (dict_keys kw) -> In k (map fst ps)) ->
  bind_arguments sg [e] kw
  = inr ((n0, e) :: map (fun p => (fst p, dict_get_default kw (fst p) (default_of (snd p)))) ps,
         dict_without (n0 :: map fst ps) kw).
Proof.
  intros Hparams Hn0 Hdef Hnd Hkw0 Hstrict.
  unfold bind_arguments. rewrite Hparams. cbn [bind_positional].
  rewrite bind_positional_nil. cbn [bind Monad_either ret].
  set (slots0 := (n0, Some e) :: map (fun p => (fst p, None)) ps).
  assert (Hslots0 : forall k, dict_get slots0 k
            = if String.eqb k n0 then Some (Some e)
              else if existsb (String.eqb k) (map fst ps) then Some None else None).
  { intros k. unfold slots0. cbn [dict_get]. rewrite dict_get_empty_slots. reflexivity. }
  assert (Hkeys0 : dict_keys slots0 = n0 :: map fst ps).
  { unfold slots0, dict_keys. cbn. rewrite map_map. reflexivity. }
  destruct (bind_keywords_ok (sig_name sg) (sig_varkw sg) kw slots0 [] Hnd)
    as [slots' [Hrun Hget]].
  { intros k Hin. rewrite Hslots0.
    destruct (String.eqb k n0) eqn:E.
    - apply String.eqb_eq in E. subst k.
      apply dict_get_None_keys in Hkw0. contradiction.
    - destruct (existsb (String.eqb k) (map fst ps)) eqn:E'; [left; reflexivity|].
      right. split; [reflexivity|].
      destruct (sig_varkw sg) eqn:Hv; [reflexivity|].
      apply (Hstrict eq_refl), existsb_eqb_In in Hin. congruence. }
  rewrite Hrun, Hkeys0. cbn [app].
  rewrite bind_defaults_ok.
  - cbn [map fst snd].
    rewrite Hget, Hslots0, String.eqb_refl, Hkw0.
    f_equal. f_equal. f_equal.
    apply map_ext_in. intros [n d] Hin. cbn [fst snd]. f_equal.
    rewrite Hget, Hslots0.
    assert (Hne : String.eqb n n0 = false).
    { apply String.eqb_neq. intros ->. apply Hn0.
      apply in_map_iff. exists (n0, d). split; [reflexivity|exact Hin]. }
    assert (Hps : existsb (String.eqb n) (map fst ps) = true).
    { apply existsb_eqb_In, in_map_iff. exists (n, d). split; [reflexivity|exact Hin]. }
    rewrite Hne, Hps. unfold dict_get_default.
    destruct (dict_get kw n); reflexivity.
  - intros n [E|Hin].
    + injection E as <- _. exists e.
      rewrite Hget, Hslots0, String.eqb_refl, Hkw0. reflexivity.
    + exfalso. exact (Hdef n Hin).
Qed.

(** A keyword that hits a filled slot, or no slot of a function without a
    variadic keyword parameter, makes the binding a [TypeError]. *)
Lemma bind_keywords_bad (func : string) (varkw : bool) (kw : dict pyval) :
  forall (slots : dict (option pyval)) (extra : dict pyval) (k : string),
    In k (dict_keys kw) ->
    (exists x, dict_get slots k = Some (Some x))
    \/ (dict_get slots k = None /\ varkw = false) ->
    exists te, bind_keywords func varkw slots extra kw = inl (TypeError te).
Proof.
  induction kw as [|[k0 v0] kw IH]; intros slots extra k Hin Hbad; [destruct Hin|].
  cbn [bind_keywords].
  destruct (dict_get slots k0) as [[x|]|] eqn:Hk0.
  - eexists. reflexivity.
  - assert (Hne : k <> k0).
    { intros ->. destruct Hbad as [[x Hx]|[Hx _]]; congruence. }
    destruct Hin as [Heq|Hin]; [cbn in Heq; congruence|].
    apply (IH _ _ k Hin). rewrite (dict_get_set_other _ _ _ _ Hne). exact Hbad.
  - destruct varkw.
    + assert (Hne : k <> k0).
      { intros ->. destruct Hbad as [[x Hx]|[_ Hx]]; congruence. }
      destruct Hin as [Heq|Hin]; [cbn in Heq; congruence|].
      exact (IH _ _ k Hin Hbad).
    + eexists. reflexivity.
Qed.

Lemma bind_arguments_bad (sg : signature) (n0 : string) (d0 : option pyval)
  (ps : list (string * option pyval)) (e : pyval) (kw : dict pyval) (k : string) :
  sig_params sg = (n0, d0) :: ps ->
  In k (dict_keys kw) ->
  k = n0 \/ (sig_varkw sg = false /\ ~ In k (n0 :: map fst ps)) ->
  exists te, bind_arguments sg [e] kw = inl (TypeError te).
Proof.
  intros Hparams Hin Hbad. unfold bind_arguments. rewrite Hparams.
  cbn [bind_positional]. rewrite bind_positional_nil. cbn [bind Monad_either ret].
  destruct (bind_keywords_bad (sig_name sg) (sig_varkw sg) kw
              ((n0, Some e) :: map (fun p => (fst p, None)) ps) [] k Hin)
    as [te Hte].
  - cbn [dict_get]. destruct Hbad as [->|[Hv Hn]].
    + left. exists e. rewrite String.eqb_refl. reflexivity.
    + right. split; [|exact Hv].
      destruct (String.eqb k n0) eqn:E.
      * apply String.eqb_eq in E. subst k. exfalso. apply Hn. left. reflexivity.
      * rewrite dict_get_empty_slots.
        destruct (existsb (String.eqb k) (map fst ps)) eqn:E'; [|reflexivity].
        apply existsb_eqb_In in E'. exfalso. apply Hn. right. exact E'.
  - exists te. rewrite Hte. reflexivity.
Qed.

(** ** The plot functions *)

Ltac distinct_names :=
  repeat (constructor; [cbn; intuition discriminate|]); constructor.

Ltac no_required :=
  let n := fresh "n" in let Hin := fresh "Hin" in
  intros n Hin; cbn in Hin;
  repeat (destruct Hin as [Hin|Hin]; [discriminate Hin|]); destruct Hin.

(** [lpi(e, **kw)], for keywords that are a dictionary and do not name
    [experiment], is one call [backend.lpi(e, model=..., model_kwargs=...,
    n_points=..., **rest)]: each of the three the keyword given, else
    "RandomForestRegressor", [None] and 20; [rest] the other keywords in
    order; the result and the exceptions are the backend's. *)
Theorem lpi_forwards {B} `{Backend B} (e : pyval) (kw : dict pyval) (st : pstate B) :
  NoDup (dict_keys kw) ->
  dict_get kw "experiment" = None ->
  lpi [e] kw st
  = backend_call "lpi" [e]
      ([("model", dict_get_default kw "model" (PyStr "RandomForestRegressor"));
        ("model_kwargs", dict_get_default kw "model_kwargs" PyNone);
        ("n_points", dict_get_default kw "n_points" (PyInt 20))]
       ++ dict_without ["experiment"; "model"; "model_kwargs"; "n_points"] kw)%list st.
Proof.
  intros Hnd Hexp. unfold lpi. cbn [bind Monad_py lift_exn].
  rewrite (bind_arguments_ok lpi_signature "experiment" None
             [("model", Some (PyStr "RandomForestRegressor"));
              ("model_kwargs", Some PyNone); ("n_points", Some (PyInt 20))]
             e kw eq_refl);
    [|cbn; intuition discriminate|no_required|exact Hnd|exact Hexp|discriminate].
  cbn [map fst snd default_of arg dict_get String.eqb Ascii.eqb Bool.eqb].
  rewrite merge_kwargs_disjoint; [reflexivity|apply dict_without_NoDup; exact Hnd|].
  intros k Hk. apply dict_without_keys in Hk. destruct Hk as [_ Hk].
  intros Hin. apply Hk. right. exact Hin.
Qed.

Lemma lpi_forwards_witness :
  lpi (H:=counting_backend) [an_experiment]
    [("n_points", PyInt 5); ("title", PyStr "t")] bound_pstate
  = backend_call (H:=counting_backend) "lpi" [an_experiment]
      [("model", PyStr "RandomForestRegressor"); ("model_kwargs", PyNone);
       ("n_points", PyInt 5); ("title", PyStr "t")] bound_pstate.
Proof.
  refine (lpi_forwards (H:=counting_backend) an_experiment
            [("n_points", PyInt 5); ("title", PyStr "t")] bound_pstate _ eq_refl).
  distinct_names.
Defined.

(** [parallel_coordinates(e, **kw)], for keywords that are a dictionary and
    do not name [experiment], is one call
    [backend.parallel_coordinates(e, order=..., **rest)], [order] the
    keyword given or else [None]. *)
Theorem parallel_coordinates_forwards {B} `{Backend B}
  (e : pyval) (kw : dict pyval) (st : pstate B) :
  NoDup (dict_keys kw) ->
  dict_get kw "experiment" = None ->
  parallel_coordinates [e] kw st
  = backend_call "parallel_coordinates" [e]
      (("order", dict_get_default kw "order" PyNone)
       :: dict_without ["experiment"; "order"] kw) st.
Proof.
  intros Hnd Hexp. unfold parallel_coordinates. cbn [bind Monad_py lift_exn].
  rewrite (bind_arguments_ok parallel_coordinates_signature "experiment" None
             [("order", Some PyNone)] e kw eq_refl);
    [|cbn; intuition discriminate|no_required|exact Hnd|exact Hexp|discriminate].
  cbn [map fst snd default_of arg dict_get String.eqb Ascii.eqb Bool.eqb].
  rewrite merge_kwargs_disjoint; [reflexivity|apply dict_without_NoDup; exact Hnd|].
  intros k Hk. apply dict_without_keys in Hk. destruct Hk as [_ Hk].
  intros Hin. apply Hk. right. exact Hin.
Qed.

Lemma parallel_coordinates_forwards_witness :
  parallel_coordinates (H:=counting_backend) [an_experiment]
    [("title", PyStr "t"); ("order", PyList [PyStr "x"; PyStr "y"])] bound_pstate
  = backend_call (H:=counting_backend) "parallel_coordinates" [an_experiment]
      [("order", PyList [PyStr "x"; PyStr "y"]); ("title", PyStr "t")] bound_pstate.
Proof.
  refine (parallel_coordinates_forwards (H:=counting_backend) an_experiment
            [("title", PyStr "t"); ("order", PyList [PyStr "x"; PyStr "y"])]
            bound_pstate _ eq_refl).
  distinct_names.
Defined.

(** [regret(e, **kw)], for keywords that are a dictionary and do not name
    [experiment], is one call [backend.regret(e, order_by, verbose_hover,
    **rest)] with the two passed by position: the keyword given, or else
    "suggested" and [True]. *)
Theorem regret_forwards {B} `{Backend B} (e : pyval) (kw : dict pyval) (st : pstate B) :
  NoDup (dict_keys kw) ->
  dict_get kw "experiment" = None ->
  regret [e] kw st
  = backend_call "regret"
      [e; dict_get_default kw "order_by" (PyStr "suggested");
       dict_get_default kw "verbose_hover" (PyBool true)]
      (dict_without ["experiment"; "order_by"; "verbose_hover"] kw) st.
Proof.
  intros Hnd Hexp. unfold regret. cbn [bind Monad_py lift_exn].
  rewrite (bind_arguments_ok regret_signature "experiment" None
             [("order_by", Some (PyStr "suggested"));
              ("verbose_hover", Some (PyBool true))] e kw eq_refl);
    [|cbn; intuition discriminate|no_required|exact Hnd|exact Hexp|discriminate].
  cbn [map fst snd default_of arg dict_get String.eqb Ascii.eqb Bool.eqb].
  rewrite merge_kwargs_disjoint;
    [reflexivity|apply dict_without_NoDup; exact Hnd|intros k _ []].
Qed.

Lemma regret_forwards_witness :
  regret (H:=counting_backend) [an_experiment]
    [("verbose_hover", PyBool false); ("title", PyStr "t")] bound_pstate
  = backend_call (H:=counting_backend) "regret"
      [an_experiment; PyStr "suggested"; PyBool false]
      [("title", PyStr "t")] bound_pstate.
Proof.
  refine (regret_forwards (H:=counting_backend) an_experiment
            [("verbose_hover", PyBool false); ("title", PyStr "t")]
            bound_pstate _ eq_refl).
  distinct_names.
Defined.

(** [partial_dependencies(e, **kw)], for keywords that are a dictionary of
    its own seven options, is one call of [backend.partial_dependencies]
    on [e] with all seven by keyword, each the keyword given or else its
    default. *)
Theorem partial_dependencies_forwards {B} `{Backend B}
  (e : pyval) (kw : dict pyval) (st : pstate B) :
  NoDup (dict_keys kw) ->
  (forall k, In k (dict_keys kw) ->
     In k ["params"; "smoothing"; "n_grid_points"; "n_samples"; "colorscale";
           "model"; "model_kwargs"]) ->
  partial_dependencies [e] kw st
  = backend_call "partial_dependencies" [e]
      [("params", dict_get_default kw "params" PyNone);
       ("smoothing", dict_get_default kw "smoothing" (PyFloat "0.85"));
       ("n_grid_points", dict_get_default kw "n_grid_points" (PyInt 10));
       ("n_samples", dict_get_default kw "n_samples" (PyInt 50));
       ("colorscale", dict_get_default kw "colorscale" (PyStr "Blues"));
       ("model", dict_get_default kw "model" (PyStr "RandomForestRegressor"));
       ("model_kwargs", dict_get_default kw "model_kwargs" PyNone)] st.
Proof.
  intros Hnd Hown. unfold partial_dependencies. cbn [bind Monad_py lift_exn].
  rewrite (bind_arguments_ok partial_dependencies_signature "experiment" None
             [("params", Some PyNone);
              ("smoothing", Some (PyFloat "0.85")); ("n_grid_points", Some (PyInt 10));
              ("n_samples", Some (PyInt 50)); ("colorscale", Some (PyStr "Blues"));
              ("model", Some (PyStr "RandomForestRegressor"));
              ("model_kwargs", Some PyNone)] e kw eq_refl);
    [|cbn; intuition discriminate|no_required|exact Hnd| |intros _; exact Hown].
  - cbn [map fst snd default_of arg dict_get String.eqb Ascii.eqb Bool.eqb].
    reflexivity.
  - apply dict_get_None_keys. intros Hin. apply Hown in Hin.
    cbn in Hin. intuition discriminate.
Qed.

Lemma partial_dependencies_forwards_witness :
  partial_dependencies (H:=counting_backend) [an_experiment]
    [("smoothing", PyFloat "0.5")] bound_pstate
  = backend_call (H:=counting_backend) "partial_dependencies" [an_experiment]
      [("params", PyNone); ("smoothing", PyFloat "0.5");
       ("n_grid_points", PyInt 10); ("n_samples", PyInt 50);
       ("colorscale", PyStr "Blues"); ("model", PyStr "RandomForestRegressor");
       ("model_kwargs", PyNone)] bound_pstate.
Proof.
  refine (partial_dependencies_forwards (H:=counting_backend) an_experiment
            [("smoothing", PyFloat "0.5")] bound_pstate _ _).
  - distinct_names.
  - intros k [<-|[]]. right. left. reflexivity.
Defined.

(** [partial_dependencies] takes no other keyword than its own parameters:
    one keyword outside them and the call is a [TypeError], raised before
    the backend is reached. *)
Theorem partial_dependencies_rejects_other_keywords {B} `{Backend B}
  (e : pyval) (kw : dict pyval) (k : string) (st : pstate B) :
  In k (dict_keys kw) ->
  ~ In k ["experiment"; "params"; "smoothing"; "n_grid_points"; "n_samples";
          "colorscale"; "model"; "model_kwargs"] ->
  exists te, partial_dependencies [e] kw st = (inl (TypeError te), st).
Proof.
  intros Hin Hother.
  destruct (bind_arguments_bad partial_dependencies_signature "experiment" None
              _ e kw k eq_refl Hin) as [te Hte].
  - right. split; [reflexivity|exact Hother].
  - exists te. unfold partial_dependencies. cbn [bind Monad_py lift_exn].
    rewrite Hte. reflexivity.
Qed.

Lemma partial_dependencies_rejects_other_keywords_witness :
  exists te,
    partial_dependencies (H:=counting_backend) [an_experiment]
      [("smoothing", PyFloat "0.5"); ("title", PyStr "t")] bound_pstate
    = (inl (TypeError te), bound_pstate).
Proof.
  refine (partial_dependencies_rejects_other_keywords (H:=counting_backend)
            an_experiment [("smoothing", PyFloat "0.5"); ("title", PyStr "t")]
            "title" bound_pstate _ _).
  - right. left. reflexivity.
  - cbn. intuition discriminate.
Defined.

(** ** What a call of the accessor can do *)

Lemma bind_positional_raises (func : string) (params : list (string * option pyval))
  (args : list pyval) (err : exn) :
  bind_positional func params args = inl err -> exists te, err = TypeError te.
Proof.
  revert args. induction params as [|[n d] ps IH]; intros [|a args]; cbn;
    try discriminate.
  - intros E. injection E as <-. eexists. reflexivity.
  - destruct (bind_positional func ps args) as [err'|slots] eqn:Hb; [|discriminate].
    intros E. injection E as <-. exact (IH args Hb).
Qed.

Lemma bind_keywords_raises (func : string) (varkw : bool) (kw : dict pyval) :
  forall slots extra err,
    bind_keywords func varkw slots extra kw = inl err -> exists te, err = TypeError te.
Proof.
  induction kw as [|[k v] kw IH]; intros slots extra err; cbn [bind_keywords];
    [discriminate|].
  destruct (dict_get slots k) as [[x|]|].
  - intros E. injection E as <-. eexists. reflexivity.
  - apply IH.
  - destruct varkw; [apply IH|].
    intros E. injection E as <-. eexists. reflexivity.
Qed.

Lemma bind_defaults_raises (func : string) (slots : dict (option pyval))
  (params : list (string * option pyval)) (err : exn) :
  bind_defaults func params slots = inl err -> exists te, err = TypeError te.
Proof.
  induction params as [|[n d] ps IH]; cbn; [discriminate|].
  destruct (dict_get slots n) as [[v|]|]; destruct d as [x|]; cbn;
    try (intros E; injection E as <-; eexists; reflexivity);
    destruct (bind_defaults func ps slots) as [err'|bound]; try discriminate;
    intros E; injection E as <-; apply IH; reflexivity.
Qed.

Lemma merge_kwargs_raises (func : string) (star : dict pyval) :
  forall explicit err,
    merge_kwargs func explicit star = inl err -> exists te, err = TypeError te.
Proof.
  induction star as [|[k v] star IH]; intros explicit err; cbn; [discriminate|].
  destruct (dict_contains explicit k); [|apply IH].
  intros E. injection E as <-. eexists. reflexivity.
Qed.

(** A slot that is filled stays as it is through the binding of keywords. *)
Lemma bind_keywords_keeps_filled (func : string) (varkw : bool) (kw : dict pyval) :
  forall slots extra slots' extra' p x,
    bind_keywords func varkw slots extra kw = inr (slots', extra') ->
    dict_get slots p = Some (Some x) ->
    dict_get slots' p = Some (Some x).
Proof.
  induction kw as [|[k v] kw IH]; intros slots extra slots' extra' p x;
    cbn [bind_keywords].
  - intros E. injection E as <- _. trivial.
  - destruct (dict_get slots k) as [[y|]|] eqn:Hk; [discriminate| |].
    + intros Hrun Hp. apply (IH _ _ _ _ p x Hrun).
      rewrite dict_get_set_other; [exact Hp|]. intros ->. congruence.
    + destruct varkw; [|discriminate]. apply IH.
Qed.

(** The two outcomes of binding [f(e, **kw)]: a [TypeError], or the first
    parameter bound to [e]. *)
Lemma bind_arguments_cases (sg : signature) (n0 : string) (d0 : option pyval)
  (ps : list (string * option pyval)) (e : pyval) (kw : dict pyval) :
  sig_params sg = (n0, d0) :: ps ->
  (exists te, bind_arguments sg [e] kw = inl (TypeError te))
  \/ (exists bound extra,
        bind_arguments sg [e] kw = inr (bound, extra) /\ arg bound n0 = e).
Proof.
  intros Hparams. unfold bind_arguments. rewrite Hparams.
  cbn [bind_positional]. rewrite bind_positional_nil. cbn [bind Monad_either ret].
  destruct (bind_keywords (sig_name sg) (sig_varkw sg)
              ((n0, Some e) :: map (fun p => (fst p, None)) ps) [] kw)
    as [err|[slots' extra]] eqn:Hk.
  - destruct (bind_keywords_raises _ _ _ _ _ _ Hk) as [te ->]. left. eexists. reflexivity.
  - assert (Hn0 : dict_get slots' n0 = Some (Some e)).
    { apply (bind_keywords_keeps_filled _ _ _ _ _ _ _ n0 e Hk).
      cbn. rewrite String.eqb_refl. reflexivity. }
    cbn [bind_defaults]. rewrite Hn0. cbn [bind Monad_either ret].
    destruct (bind_defaults (sig_name sg) ps slots') as [err|bound] eqn:Hd.
    + destruct (bind_defaults_raises _ _ _ _ Hd) as [te ->]. left. eexists. reflexivity.
    + right. exists ((n0, e) :: bound), extra. split; [reflexivity|].
      unfold arg. cbn. rewrite String.eqb_refl. reflexivity.
Qed.

(** Each function of the table, called on [e], raises a [TypeError] in the
    state it was called in, or is one call of the backend function of its
    name, with [e] first. *)
Lemma handler_cases {B} `{Backend B} (name : string) (h : handler B) :
  dict_get PLOT_METHODS name = Some h ->
  forall (e : pyval) (kw : dict pyval) (st : pstate B),
    (exists te, h [e] kw st = (inl (TypeError te), st))
    \/ (exists more kws, h [e] kw st = backend_call name (e :: more) kws st).
Proof.
  unfold PLOT_METHODS. cbn [dict_get]. intros Hget e kw st.
  repeat match type of Hget with
         | (if String.eqb ?a ?b then _ else _) = _ =>
             let E := fresh "E" in
             destruct (String.eqb a b) eqn:E;
             [apply String.eqb_eq in E; subst a|clear E]
         end;
    try discriminate; injection Hget as <-.
  - unfold lpi. cbn [bind Monad_py lift_exn].
    destruct (bind_arguments_cases lpi_signature "experiment" None _ e kw eq_refl)
      as [[te ->]|[a [extra [-> ->]]]]; [left; eexists; reflexivity|].
    destruct (merge_kwargs _ _ extra) as [err|kws] eqn:Hm.
    + destruct (merge_kwargs_raises _ _ _ _ Hm) as [te ->]. left. eexists. reflexivity.
    + right. exists [], kws. reflexivity.
  - unfold parallel_coordinates. cbn [bind Monad_py lift_exn].
    destruct (bind_arguments_cases parallel_coordinates_signature "experiment" None
                _ e kw eq_refl)
      as [[te ->]|[a [extra [-> ->]]]]; [left; eexists; reflexivity|].
    destruct (merge_kwargs _ _ extra) as [err|kws] eqn:Hm.
    + destruct (merge_kwargs_raises _ _ _ _ Hm) as [te ->]. left. eexists. reflexivity.
    + right. exists [], kws. reflexivity.
  - unfold partial_dependencies. cbn [bind Monad_py lift_exn].
    destruct (bind_arguments_cases partial_dependencies_signature "experiment" None
                _ e kw eq_refl)
      as [[te ->]|[a [extra [-> ->]]]]; [left; eexists; reflexivity|].
    right. eexists [], _. reflexivity.
  - unfold regret. cbn [bind Monad_py lift_exn].
    destruct (bind_arguments_cases regret_signature "experiment" None _ e kw eq_refl)
      as [[te ->]|[a [extra [-> ->]]]]; [left; eexists; reflexivity|].
    destruct (merge_kwargs _ _ extra) as [err|kws] eqn:Hm.
    + destruct (merge_kwargs_raises _ _ _ _ Hm) as [te ->]. left. eexists. reflexivity.
    + right. eexists [_; _], kws. reflexivity.
Qed.

(** A call of an accessor bound to [e] either raises in the state it
    started from, the backend not called, or makes exactly one call to the
    backend: to the function named by [kind] ("regret" when there is
    none), with [e] as first argument. The call then returns what the
    backend returned or raises what it raised, unchanged. *)
Theorem call_is_one_backend_call {B} `{Backend B}
  (self : nat) (kwargs : dict pyval) (e : pyval) (st : pstate B) :
  _experiment (heap st self) = Some e ->
  (exists err, PlotAccessor.__call__ self kwargs st = (inl err, st))
  \/ (exists name more kws,
        dict_get_default kwargs "kind" (PyStr "regret") = PyStr name
        /\ fst (PlotAccessor.__call__ self kwargs st)
           = fst (backend name (e :: more) kws (backend_state st))
        /\ backend_state (snd (PlotAccessor.__call__ self kwargs st))
           = snd (backend name (e :: more) kws (backend_state st))
        /\ trace (snd (PlotAccessor.__call__ self kwargs st))
           = (trace st ++ [Call name (e :: more) kws])%list).
Proof.
  intros He. rewrite call_cases.
  assert (Hpop : fst (dict_pop kwargs "kind" (PyStr "regret"))
                 = dict_get_default kwargs "kind" (PyStr "regret")).
  { unfold dict_pop, dict_get_default. destruct (dict_get kwargs "kind"); reflexivity. }
  destruct (dict_pop kwargs "kind" (PyStr "regret")) as [kind kw]. cbn [fst] in Hpop.
  destruct (keys_contains (dict_keys PLOT_METHODS) kind) as [err|[|]] eqn:Hc;
    [left; eexists; reflexivity| |left; eexists; reflexivity].
  destruct (keys_contains_true _ _ Hc) as [name [-> Hin]].
  destruct (PLOT_METHODS_In_get name Hin) as [h Hh].
  destruct (resolve_known _ _ Hh) as [_ ->]. rewrite He.
  destruct (handler_cases name h Hh e kw st) as [[te ->]|[more [kws ->]]].
  - left. eexists. reflexivity.
  - right. exists name, more, kws. split; [symmetry; exact Hpop|].
    unfold backend_call.
    destruct (backend name (e :: more) kws (backend_state st)) as [r b].
    repeat split.
Qed.

Lemma call_is_one_backend_call_witness :
  (exists err,
     PlotAccessor.__call__ (H:=failing_backend) 0 [("kind", PyStr "lpi")] bound_pstate
     = (inl err, bound_pstate))
  \/ (exists name more kws,
        dict_get_default [("kind", PyStr "lpi")] "kind" (PyStr "regret") = PyStr name
        /\ fst (PlotAccessor.__call__ (H:=failing_backend) 0
                  [("kind", PyStr "lpi")] bound_pstate)
           = fst (failing_backend name (an_experiment :: more) kws 0)
        /\ backend_state (snd (PlotAccessor.__call__ (H:=failing_backend) 0
                                 [("kind", PyStr "lpi")] bound_pstate))
           = snd (failing_backend name (an_experiment :: more) kws 0)
        /\ trace (snd (PlotAccessor.__call__ (H:=failing_backend) 0
                         [("kind", PyStr "lpi")] bound_pstate))
           = [Call name (an_experiment :: more) kws]).
Proof.
  exact (call_is_one_backend_call (H:=failing_backend) 0 [("kind", PyStr "lpi")]
           an_experiment bound_pstate eq_refl).
Defined.

(** An option named [experiment] clashes with the subject the accessor
    passes by position: a call with a name of the table and such an option
    is a [TypeError], raised before the backend is reached. *)
Theorem call_rejects_experiment_option {B} `{Backend B}
  (self : nat) (kwargs : dict pyval) (name : string) (h : handler B)
  (e v : pyval) (st : pstate B) :
  _experiment (heap st self) = Some e ->
  dict_get kwargs "kind" = Some (PyStr name) ->
  dict_get PLOT_METHODS name = Some h ->
  dict_get kwargs "experiment" = Some v ->
  exists te, PlotAccessor.__call__ self kwargs st = (inl (TypeError te), st).
Proof.
  intros He Hkind Hh Hexp.
  rewrite (call_known self kwargs name h e st He Hkind Hh).
  assert (Hin : In "experiment" (dict_keys (dict_del kwargs "kind"))).
  { apply (dict_get_In_keys _ _ v). rewrite dict_get_del_other; [exact Hexp|discriminate]. }
  revert Hh. unfold PLOT_METHODS. cbn [dict_get]. intros Hh.
  repeat match type of Hh with
         | (if ?b then _ else _) = _ => destruct b
         end;
    try discriminate; injection Hh as <-;
    [destruct (bind_arguments_bad lpi_signature "experiment" None _ e
                 (dict_del kwargs "kind") "experiment" eq_refl Hin (or_introl eq_refl))
       as [te Hte]; unfold lpi
    |destruct (bind_arguments_bad parallel_coordinates_signature "experiment" None _ e
                 (dict_del kwargs "kind") "experiment" eq_refl Hin (or_introl eq_refl))
       as [te Hte]; unfold parallel_coordinates
    |destruct (bind_arguments_bad partial_dependencies_signature "experiment" None _ e
                 (dict_del kwargs "kind") "experiment" eq_refl Hin (or_introl eq_refl))
       as [te Hte]; unfold partial_dependencies
    |destruct (bind_arguments_bad regret_signature "experiment" None _ e
                 (dict_del kwargs "kind") "experiment" eq_refl Hin (or_introl eq_refl))
       as [te Hte]; unfold regret];
    exists te; cbn [bind Monad_py lift_exn]; rewrite Hte; reflexivity.
Qed.

Lemma call_rejects_experiment_option_witness :
  exists te,
    PlotAccessor.__call__ (H:=counting_backend) 0
      [("kind", PyStr "regret"); ("experiment", PyStr "other")] bound_pstate
    = (inl (TypeError te), bound_pstate).
Proof.
  exact (call_rejects_experiment_option (H:=counting_backend) 0
           [("kind", PyStr "regret"); ("experiment", PyStr "other")]
           "regret" regret an_experiment (PyStr "other") bound_pstate
           eq_refl eq_refl eq_refl eq_refl).
Defined.



(** ** The plot methods and the constructor *)

(** A call [f(k=v, **star)] whose [star], a dictionary, has the key [k]
    is the [TypeError] of a keyword given twice. *)
Lemma merge_kwargs_repeated (func k : string) (star : dict pyval) :
  forall explicit,
    NoDup (dict_keys star) ->
    In k (dict_keys star) ->
    In k (dict_keys explicit) ->
    (forall k', In k' (dict_keys star) -> In k' (dict_keys explicit) -> k' = k) ->
    merge_kwargs func explicit star = inl (TypeError (MultipleValues func k)).
Proof.
  induction star as [|[k0 v0] star IH]; intros explicit Hnd Hin Hex Honly;
    [destruct Hin|].
  cbn [merge_kwargs]. cbn in Hnd. inversion Hnd as [|? ? Hnotin Hnd']; subst.
  destruct (dict_contains explicit k0) eqn:Hc.
  - assert (Hk0 : In k0 (dict_keys explicit)).
    { destruct (in_dec string_dec k0 (dict_keys explicit)) as [Hi|Hn]; [exact Hi|].
      apply dict_contains_false in Hn. congruence. }
    rewrite (Honly k0 (or_introl eq_refl) Hk0). reflexivity.
  - apply dict_contains_false in Hc.
    destruct Hin as [Heq|Hin]; [cbn in Heq; subst k0; contradiction|].
    apply IH; [exact Hnd'|exact Hin| |].
    + rewrite dict_keys_app. apply in_or_app. left. exact Hex.
    + intros k' Hk' Hk''. rewrite dict_keys_app in Hk''.
      apply in_app_or in Hk''. destruct Hk'' as [Hk''|[Heq|[]]].
      * apply Honly; [right; exact Hk'|exact Hk''].
      * cbn in Heq. subst k'. contradiction.
Qed.

(** A plot method takes no [kind]: called with options, a dictionary, that
    have one, each of the four raises the [TypeError] of a keyword given
    twice, before any dispatch. *)
Theorem method_rejects_kind_option {B} `{Backend B}
  (name : string) (m : nat -> dict pyval -> py (pstate B) pyval)
  (self : nat) (options : dict pyval) (st : pstate B) :
  In (name, m) PlotAccessor.methods ->
  NoDup (dict_keys options) ->
  In "kind" (dict_keys options) ->
  m self options st = (inl (TypeError (MultipleValues "__call__" "kind")), st).
Proof.
  intros Hm Hnd Hin.
  assert (Hmerge : forall v, merge_kwargs "__call__" [("kind", v)] options
                             = inl (TypeError (MultipleValues "__call__" "kind"))).
  { intros v. apply merge_kwargs_repeated; [exact Hnd|exact Hin|left; reflexivity|].
    intros k' _ [<-|[]]. reflexivity. }
  destruct Hm as [E|[E|[E|[E|[]]]]]; injection E as <- <-;
    [unfold PlotAccessor.lpi | unfold PlotAccessor.parallel_coordinates
    |unfold PlotAccessor.partial_dependencies | unfold PlotAccessor.regret];
    cbn [bind Monad_py lift_exn]; rewrite Hmerge; reflexivity.
Qed.

Lemma method_rejects_kind_option_witness :
  PlotAccessor.lpi (H:=counting_backend) 0
    [("n_points", PyInt 5); ("kind", PyStr "regret")] bound_pstate
  = (inl (TypeError (MultipleValues "__call__" "kind")), bound_pstate).
Proof.
  refine (method_rejects_kind_option (H:=counting_backend) "lpi" PlotAccessor.lpi 0
            [("n_points", PyInt 5); ("kind", PyStr "regret")] bound_pstate _ _ _).
  - left. reflexivity.
  - distinct_names.
  - right. left. reflexivity.
Defined.

(** The method [regret] and the call without a name are the same plot: on
    options that are a dictionary without [kind], same result and same
    final state. *)
Theorem regret_method_is_default_call {B} `{Backend B}
  (self : nat) (options : dict pyval) (st : pstate B) :
  NoDup (dict_keys options) ->
  dict_get options "kind" = None ->
  PlotAccessor.regret self options st = PlotAccessor.__call__ self options st.
Proof.
  intros Hnd Hnone. unfold PlotAccessor.regret. cbn [bind Monad_py lift_exn].
  rewrite (merge_kwargs_disjoint "__call__" options [("kind", PyStr "regret")] Hnd).
  - cbn [app]. rewrite !call_cases.
    rewrite (dict_pop_absent _ _ (PyStr "regret") Hnone).
    unfold dict_pop. cbn [dict_get String.eqb Ascii.eqb Bool.eqb dict_del].
    rewrite (dict_del_absent _ _ Hnone). reflexivity.
  - intros k Hk [<-|[]]. apply dict_get_None_keys in Hnone. contradiction.
Qed.

Lemma regret_method_is_default_call_witness :
  PlotAccessor.regret (H:=counting_backend) 0 [("title", PyStr "t")] bound_pstate
  = PlotAccessor.__call__ (H:=counting_backend) 0 [("title", PyStr "t")] bound_pstate.
Proof.
  refine (regret_method_is_default_call (H:=counting_backend) 0
            [("title", PyStr "t")] bound_pstate _ eq_refl).
  distinct_names.
Defined.

(** Constructing an accessor and calling it at once: on a subject whose
    truth value is true and a name of the table, the expression is the
    call of the function under that name on that very subject, in the state
    the construction leaves; on a subject whose truth value is false it
    raises the constructor's [ValueError] and the backend is not called. *)
Theorem construct_then_call {B} `{Backend B}
  (experiment : pyval) (kwargs : dict pyval) (name : string) (h : handler B)
  (st : pstate B) :
  dict_get kwargs "kind" = Some (PyStr name) ->
  dict_get PLOT_METHODS name = Some h ->
  let run := bind (PlotAccessor.new experiment)
               (fun self => PlotAccessor.__call__ self kwargs) in
  (truthy experiment = true ->
   run st = h [experiment] (dict_del kwargs "kind") (snd (PlotAccessor.new experiment st)))
  /\ (truthy experiment = false ->
      fst (run st) = inl (ValueError "Parameter 'experiment' is None")
      /\ trace (snd (run st)) = trace st
      /\ backend_state (snd (run st)) = backend_state st).
Proof.
  intros Hkind Hh run. subst run.
  unfold PlotAccessor.new, PlotAccessor.__init__, PlotAccessor.set_experiment.
  split; intros Ht; cbn [bind Monad_py get put MonadState_py ret raise MonadExc_py];
    rewrite Ht; cbn [negb snd fst]; [|repeat split].
  apply (call_known _ kwargs name h experiment); [|exact Hkind|exact Hh].
  cbn [heap]. rewrite Nat.eqb_refl. reflexivity.
Qed.

Lemma construct_then_call_witness :
  bind (PlotAccessor.new an_experiment)
    (fun self => PlotAccessor.__call__ (H:=counting_backend) self
                   [("kind", PyStr "regret")]) initial_pstate
  = regret (H:=counting_backend) [an_experiment] []
      (snd (PlotAccessor.new an_experiment initial_pstate)).
Proof.
  exact (proj1 (construct_then_call (H:=counting_backend) an_experiment
                  [("kind", PyStr "regret")] "regret" regret initial_pstate
                  eq_refl eq_refl) eq_refl).
Defined.

(** ** Registration, further *)

(** When the function of every module found returns, whatever it returns,
    [load_modules_parser] returns: each module has been called once, in the
    order found, and the registrar is the one the functions built in that
    order. *)
Theorem registration_completes {R}
  (loader : string -> (pymodule R -> bool) -> py (cli_state R) (list (pymodule R)))
  (modules : list (pymodule R)) (st st0 : cli_state R) :
  loader "orion.core.cli.db" (fun m => hasattr m "add_subparser") st
    = (inr modules, st0) ->
  Forall (fun m => exists f, getattr m "add_subparser" = inr (Function f)
                             /\ forall reg, exists v reg', f reg = (inr v, reg'))
         modules ->
  load_modules_parser loader st
  = (inr tt, {| registrar := fold_left (fun reg m => hook_effect m reg) modules
                               (registrar st0);
                invoked := (invoked st0 ++ modules)%list |}).
Proof.
  intros Hload Hall. unfold load_modules_parser. cbn [bind Monad_py]. rewrite Hload.
  clear Hload st. revert st0. induction Hall as [|m ms [f [Hattr Hret]] _ IH]; intros st0.
  - cbn. rewrite app_nil_r. destruct st0; reflexivity.
  - rewrite (register_modules_cons m ms f st0 Hattr).
    destruct (Hret (registrar st0)) as [v [reg' Hf]]. rewrite Hf, IH.
    cbn [registrar invoked fold_left].
    assert (Heff : hook_effect m (registrar st0) = reg').
    { unfold hook_effect. rewrite Hattr, Hf. reflexivity. }
    rewrite Heff, <- app_assoc. reflexivity.
Qed.

Lemma registration_completes_witness :
  load_modules_parser
    (fun _ _ st => (inr [mod_setup; mod_upgrade], st)) initial_cli_state
  = (inr tt, {| registrar := ["setup"; "upgrade"]; invoked := [mod_setup; mod_upgrade] |}).
Proof.
  refine (registration_completes
            (fun _ _ st => (inr [mod_setup; mod_upgrade], st))
            [mod_setup; mod_upgrade] initial_cli_state initial_cli_state eq_refl _).
  repeat constructor;
    (eexists; split; [reflexivity|]; intros reg; eexists; eexists; reflexivity).
Defined.

(** The predicate is [hasattr], not [callable]: a module whose
    [add_subparser] is not a function is found like the others, and when
    the loop reaches it, the functions before it having returned,
    [load_modules_parser] raises the [TypeError] of calling it. The modules
    after it are not called, and what the earlier ones registered stays. *)
Theorem registration_stops_at_non_callable {R}
  (loader : string -> (pymodule R -> bool) -> py (cli_state R) (list (pymodule R)))
  (pre post : list (pymodule R)) (m : pymodule R) (v : pyval)
  (st st0 st1 : cli_state R) :
  loader "orion.core.cli.db" (fun m => hasattr m "add_subparser") st
    = (inr (pre ++ m :: post)%list, st0) ->
  register_modules pre st0 = (inr tt, st1) ->
  getattr m "add_subparser" = inr (Value v) ->
  hasattr m "add_subparser" = true
  /\ load_modules_parser loader st
     = (inl (TypeError (NotCallable (type_name v))), st1)
  /\ invoked st1 = (invoked st0 ++ pre)%list.
Proof.
  intros Hload Hpre Hattr. split; [|split].
  - unfold hasattr, dict_contains. unfold getattr in Hattr.
    destruct (dict_get (mod_dict m) "add_subparser"); [reflexivity|discriminate].
  - unfold load_modules_parser. cbn [bind Monad_py]. rewrite Hload.
    rewrite register_modules_app, Hpre.
    cbn [register_modules bind Monad_py lift_exn]. rewrite Hattr. reflexivity.
  - exact (register_modules_returned pre st0 st1 Hpre).
Qed.

Lemma registration_stops_at_non_callable_witness :
  hasattr mod_broken "add_subparser" = true
  /\ load_modules_parser
       (fun _ _ st => (inr [mod_setup; mod_broken; mod_upgrade], st)) initial_cli_state
     = (inl (TypeError (NotCallable "int")),
        {| registrar := ["setup"]; invoked := [mod_setup] |})
  /\ [mod_setup] = [mod_setup].
Proof.
  exact (registration_stops_at_non_callable
           (fun _ _ st => (inr [mod_setup; mod_broken; mod_upgrade], st))
           [mod_setup] [mod_upgrade] mod_broken (PyInt 3)
           initial_cli_state initial_cli_state
           {| registrar := ["setup"]; invoked := [mod_setup] |}
           eq_refl eq_refl eq_refl).
Defined.
